(** * staking-api-service: request handlers and server configuration

    A shallow embedding of

    - [internal/config/server.go]: [ServerConfig], [Validate],
      [ValidateServerLogLevel];
    - the staker handlers of package [handlers]:
      [GetStakerCountByFinalityProvider],
      [GetDelegationsCountByFinalityProvider], [GetStakerCountByStakerPk],
      [CheckStakerDelegationExist], [parseTimeframeToAfterTimestamp].

    Go values are modelled as follows.  [int], [int64], [time.Duration] and
    [zerolog.Level] are [Z]; the code below performs no arithmetic on them
    apart from the map counter, whose 64-bit wrap-around is written out.
    A nullable pointer or interface ([*types.Error], [error], [net.IP]) is an
    [option], [nil] being [None].  A Go function returning [(v, err)] returns
    a pair here as well, so that what a caller does with [v] when [err] is set
    stays visible.  [map[string]int] is a [gmap string Z].  Calls that leave
    the handler (the service layer, the logger, the clock) are nodes of a
    program tree that an interpretation of the collaborators runs. *)

From Stdlib Require Import ZArith Ascii String.
From stdpp Require Import base decidable option list strings gmap fin_maps.

Local Open Scope string_scope.
Local Open Scope list_scope.
Local Open Scope Z_scope.

(** ** Go built-ins shared by the two packages *)

(** The [error] interface: a message, and the error it wraps ([%w]). *)
Inductive error : Type :=
| errorString (text : string)
| wrapError (text : string) (inner : error).

(** [err.Error()]. *)
Definition error_Error (e : error) : string :=
  match e with
  | errorString s => s
  | wrapError s _ => s
  end.

(** [errors.New]. *)
Definition errors_New (text : string) : error := errorString text.

(** [fmt.Errorf] with a single [%v] verb at the end of the format, applied to
    a string. *)
Definition fmt_Errorf_v (pre : string) (arg : string) : error :=
  errorString (pre +:+ arg).

(** [fmt.Errorf] with a single [%w] verb at the end of the format. *)
Definition fmt_Errorf_w (pre : string) (inner : error) : error :=
  wrapError (pre +:+ error_Error inner) inner.

(** ** Package zerolog: the level constants *)

Module zerolog.

(** [type Level int8]. *)
Definition Level := Z.

Definition DebugLevel : Level := 0.
Definition InfoLevel : Level := 1.
Definition WarnLevel : Level := 2.
Definition ErrorLevel : Level := 3.
Definition FatalLevel : Level := 4.
Definition PanicLevel : Level := 5.
Definition NoLevel : Level := 6.
Definition Disabled : Level := 7.
Definition TraceLevel : Level := -1.

End zerolog.

(** ** Package config *)

Module config.

Record ServerConfig : Type := {
  Host : string;
  Port : Z;
  WriteTimeout : Z;
  ReadTimeout : Z;
  IdleTimeout : Z;
  AllowedOrigins : list string;
  LogLevel : string
}.

Section Validation.

(** The two library functions the validators call.  [net.ParseIP] yields
    [nil] for a text that is not an IP address; [zerolog.ParseLevel]
    yields a level and an error. *)
Variable IP : Type.
Variable net_ParseIP : string → option IP.
Variable zerolog_ParseLevel : string → zerolog.Level * option error.

Definition Validate (cfg : ServerConfig) : option error :=
  let ip := net_ParseIP (Host cfg) in
  if ip is None then
    Some (fmt_Errorf_v "invalid host: " (Host cfg))
  else if bool_decide (Port cfg < 0) || bool_decide (Port cfg > 65535) then
    Some (errors_New "invalid port")
  else if bool_decide (WriteTimeout cfg < 0) then
    Some (errors_New "write timeout cannot be negative")
  else if bool_decide (ReadTimeout cfg < 0) then
    Some (errors_New "read timeout cannot be negative")
  else if bool_decide (IdleTimeout cfg < 0) then
    Some (errors_New "idle timeout cannot be negative")
  else None.

Definition ValidateServerLogLevel (cfg : ServerConfig) : option error :=
  if bool_decide (LogLevel cfg = "") then None
  else
    let '(parsedLevel, err) := zerolog_ParseLevel (LogLevel cfg) in
    if err is Some e then
      Some (fmt_Errorf_w "invalid log level: " e)
    else if bool_decide (parsedLevel < zerolog.DebugLevel)
            || bool_decide (parsedLevel > zerolog.FatalLevel) then
      Some (errorString "only log levels from debug to fatal are supported")
    else None.

End Validation.

End config.

(** ** Package types *)

Module types.

(** [type ErrorCode string]. *)
Definition ErrorCode := string.

(** Modelled from the spec: the declaration of [types.Error] is not under
    src/.  An error response carries a code, a human-readable message and an
    HTTP-style status (section 6 of the specification). *)
Record Error : Type := {
  Err : error;
  StatusCode : Z;
  Code : ErrorCode
}.

(** Modelled from the spec: [types.NewErrorWithMsg] is not under src/; it
    builds the error value from its three arguments, the message being the
    precise human-readable reason (section 7). *)
Definition NewErrorWithMsg (statusCode : Z) (errorCode : ErrorCode)
    (msg : string) : Error :=
  {| Err := errors_New msg; StatusCode := statusCode; Code := errorCode |}.

(** Modelled from the spec: the delegation record handed over by the service
    layer is declared outside src/.  Section 3 lists its attributes; the
    state is kept as the string the handlers compare it with. *)
Record Delegation : Type := {
  StakingTxHashHex : string;
  StakerPkHex : string;
  FinalityProviderPkHex : string;
  State : string;
  CreatedAtSeconds : Z
}.

End types.

(** [http.StatusBadRequest]. *)
Definition http_StatusBadRequest : Z := 400.

(** ** Package handlers *)

Module handlers.

Import types.

(** [request.Context()]: opaque to the handlers, handed on to every
    collaborator. *)
Abbreviation Context := N.

(** [*http.Request], as far as the handlers look at it: the parsed query
    ([request.URL.Query()], a [url.Values]) and the context. *)
Record Request : Type := {
  URL_Query : gmap string (list string);
  Request_Context : Context
}.

(** [url.Values.Get]: the first value of the key, or the empty string. *)
Definition Values_Get (v : gmap string (list string)) (key : string) : string :=
  match v !! key with
  | Some (x :: _) => x
  | _ => ""
  end.

(** Arguments of a formatted log line. *)
Inductive LogArg : Type :=
| ArgString (s : string)
| ArgInt (n : Z).

#[global] Instance LogArg_eq_dec : EqDecision LogArg.
Proof. solve_decision. Defined.

(** *** Collaborators

    Every call that leaves the handler: the methods of [h.services]
    the handlers use, the request-scoped debug logger and the wall clock
    (Unix seconds). *)
Inductive Call : Type :=
| DelegationsByFinalityProviderPkHex (ctx : Context) (fpPkHex : string)
| StakerCountByStakerPk (ctx : Context) (stakerPk : string)
| CheckStakerHasActiveDelegationByAddress
    (ctx : Context) (address : string) (afterTimestamp : Z)
| log_Debug_Msgf (ctx : Context) (format : string) (args : list LogArg)
| time_Now_Unix.

(** What each call hands back. *)
Definition Reply (c : Call) : Type :=
  match c with
  | DelegationsByFinalityProviderPkHex _ _ => (list Delegation * option Error)%type
  | StakerCountByStakerPk _ _ => (Z * option Error)%type
  | CheckStakerHasActiveDelegationByAddress _ _ _ => (bool * option Error)%type
  | log_Debug_Msgf _ _ _ => unit
  | time_Now_Unix => Z
  end.

#[global] Instance Call_eq_dec : EqDecision Call.
Proof. solve_decision. Defined.

(** A handler body: it returns, or it makes a call and goes on with the
    reply. *)
Inductive Prog (A : Type) : Type :=
| Ret (a : A)
| Invoke (c : Call) (k : Reply c -> Prog A).

Arguments Ret {A} a.
Arguments Invoke {A} c k.

Fixpoint bind {A B : Type} (p : Prog A) (f : A -> Prog B) : Prog B :=
  match p with
  | Ret a => f a
  | Invoke c k => Invoke c (fun r => bind (k r) f)
  end.

Definition call (c : Call) : Prog (Reply c) := Invoke c Ret.

#[global] Instance Prog_ret : MRet Prog := @Ret.
#[global] Instance Prog_bind : MBind Prog := fun A B f p => bind p f.

(** The collaborators behind a handler: what every call replies. *)
Definition World : Type := forall c : Call, Reply c.

(** The value a program returns against a world. *)
Fixpoint run {A : Type} (w : World) (p : Prog A) : A :=
  match p with
  | Ret a => a
  | Invoke c k => run w (k (w c))
  end.

(** The calls it makes on the way, in order. *)
Fixpoint calls {A : Type} (w : World) (p : Prog A) : list Call :=
  match p with
  | Ret _ => []
  | Invoke c k => c :: calls w (k (w c))
  end.

(** Calls to the service layer, as opposed to the logger and the clock. *)
Definition is_service_call (c : Call) : bool :=
  match c with
  | DelegationsByFinalityProviderPkHex _ _
  | StakerCountByStakerPk _ _
  | CheckStakerHasActiveDelegationByAddress _ _ _ => true
  | log_Debug_Msgf _ _ _ | time_Now_Unix => false
  end.

Definition service_calls {A : Type} (w : World) (p : Prog A) : list Call :=
  List.filter is_service_call (calls w p).

(** The fetch of all delegations of a finality provider. *)
Definition is_provider_keyed_fetch (c : Call) : bool :=
  match c with
  | DelegationsByFinalityProviderPkHex _ _ => true
  | _ => false
  end.

(** *** Results *)

(** The [Data] field of a result is an [any]; the handlers put a count or a
    boolean there. *)
Inductive ResultData : Type :=
| DataInt (n : Z)
| DataBool (b : bool).

Record Result : Type := { Data : ResultData }.

(** Modelled from the spec: [NewResult] is declared outside src/; a scalar
    response is its data and nothing else (section 6). *)
Definition NewResult (data : ResultData) : Result := {| Data := data |}.

(** What a handler returns: a pointer to a result and a pointer to an error. *)
Definition Response : Type := (option Result * option Error)%type.

(** The handler receiver, as far as these handlers read it:
    [h.config.Server.BTCNetParam]; [h.services] is the world. *)
Record Handler (NetParams : Type) : Type := {
  config_Server_BTCNetParam : NetParams
}.
Arguments config_Server_BTCNetParam {NetParams} h.

(** Go's [int] is 64 bits wide on the platforms the service runs on. *)
Definition wrap_int (z : Z) : Z := (z + 2 ^ 63) mod 2 ^ 64 - 2 ^ 63.

(** Modelled from the spec: [utils.GetTodayStartTimestampInSeconds] is not
    under src/; it is the start of the current UTC day in Unix seconds
    (section 4.6), a function of the wall clock alone. *)
Definition GetTodayStartTimestampInSeconds : Prog Z :=
  now ← call time_Now_Unix ;
  Ret (now - now mod 86400).

Section Handlers.

(** What the handlers use and src/ does not hold: the text of
    [types.Unbonded.ToString()], the error code [types.BadRequest], the
    query parsers of the package and the network parameters. *)
Variable Unbonded_ToString : string.
Variable BadRequest : ErrorCode.
Variable NetParams : Type.
Variable parsePublicKeyQuery : Request -> string -> string * option Error.
Variable parseBtcAddressQuery :
  Request -> string -> NetParams -> string * option Error.

(** The loop of [GetStakerCountByFinalityProvider]:
    [countMap[delegation.StakerPkHex]++] unless the state is unbonded. *)
Definition countMap_step (countMap : gmap string Z) (delegation : Delegation)
    : gmap string Z :=
  if bool_decide (State delegation = Unbonded_ToString) then countMap
  else <[StakerPkHex delegation :=
           wrap_int (default 0 (countMap !! StakerPkHex delegation) + 1)]>
         countMap.

Definition countMap_of (delegations : list Delegation) : gmap string Z :=
  fold_left countMap_step delegations ∅.

(** [len(countMap)] after the loop. *)
Definition stakerCount (delegations : list Delegation) : Z :=
  Z.of_nat (size (countMap_of delegations)).

(** The loop of [GetDelegationsCountByFinalityProvider]:
    [countSlice = append(countSlice, delegation.StakerPkHex)] unless the
    state is unbonded. *)
Definition countSlice_step (countSlice : list string) (delegation : Delegation)
    : list string :=
  if bool_decide (State delegation = Unbonded_ToString) then countSlice
  else countSlice ++ [StakerPkHex delegation].

Definition countSlice_of (delegations : list Delegation) : list string :=
  fold_left countSlice_step delegations [].

(** [len(countSlice)] after the loop. *)
Definition delegationsCount (delegations : list Delegation) : Z :=
  Z.of_nat (length (countSlice_of delegations)).

Definition GetStakerCountByFinalityProvider (request : Request)
    : Prog Response :=
  let '(finalityProviderPkHex, err) :=
    parsePublicKeyQuery request "finality_provider_pk_hex" in
  if err is Some e then Ret (None, Some e) else
  _ ← call (log_Debug_Msgf (Request_Context request)
               "GetStakerCountByFinalityProvider: finalityProviderPkHex:%s"
               [ArgString finalityProviderPkHex]) ;
  '(delegations, err) ←
    call (DelegationsByFinalityProviderPkHex (Request_Context request)
            finalityProviderPkHex) ;
  if err is Some e then Ret (None, Some e) else
  _ ← call (log_Debug_Msgf (Request_Context request)
               "GetStakerCountByFinalityProvider: delegations len:%d"
               [ArgInt (Z.of_nat (length delegations))]) ;
  Ret (Some (NewResult (DataInt (stakerCount delegations))), None).

Definition GetDelegationsCountByFinalityProvider (request : Request)
    : Prog Response :=
  let '(finalityProviderPkHex, err) :=
    parsePublicKeyQuery request "finality_provider_pk_hex" in
  if err is Some e then Ret (None, Some e) else
  _ ← call (log_Debug_Msgf (Request_Context request)
               "GetDelegationsCountByFinalityProvider-: finalityProviderPkHex:%s"
               [ArgString finalityProviderPkHex]) ;
  '(delegations, err) ←
    call (DelegationsByFinalityProviderPkHex (Request_Context request)
            finalityProviderPkHex) ;
  if err is Some e then Ret (None, Some e) else
  _ ← call (log_Debug_Msgf (Request_Context request)
               "GetDelegationsCountByFinalityProvider: delegations len:%d"
               [ArgInt (Z.of_nat (length delegations))]) ;
  Ret (Some (NewResult (DataInt (delegationsCount delegations))), None).

Definition GetStakerCountByStakerPk (request : Request) : Prog Response :=
  let '(finalityProviderPkHex, err) :=
    parsePublicKeyQuery request "finality_provider_pk_hex" in
  if err is Some e then Ret (None, Some e) else
  _ ← call (log_Debug_Msgf (Request_Context request)
               "GetStakerCountByStakerPk: finalityProviderPkHex:%s"
               [ArgString finalityProviderPkHex]) ;
  '(count, err) ←
    call (StakerCountByStakerPk (Request_Context request)
            finalityProviderPkHex) ;
  if err is Some e then Ret (None, Some e) else
  Ret (Some (NewResult (DataInt count)), None).

Definition parseTimeframeToAfterTimestamp (timeframe : string)
    : Prog (Z * option Error) :=
  if bool_decide (timeframe = "") then Ret (0, None)
  else if bool_decide (timeframe = "today") then
    ts ← GetTodayStartTimestampInSeconds ;
    Ret (ts, None)
  else
    Ret (0, Some (NewErrorWithMsg http_StatusBadRequest BadRequest
                    "invalid timeframe value")).

Definition CheckStakerDelegationExist (h : Handler NetParams)
    (request : Request) : Prog Response :=
  let '(address, err) :=
    parseBtcAddressQuery request "address" (config_Server_BTCNetParam h) in
  if err is Some e then Ret (None, Some e) else
  '(afterTimestamp, err) ←
    parseTimeframeToAfterTimestamp
      (Values_Get (URL_Query request) "timeframe") ;
  if err is Some e then Ret (None, Some e) else
  '(exist', err) ←
    call (CheckStakerHasActiveDelegationByAddress (Request_Context request)
            address afterTimestamp) ;
  if err is Some e then Ret (None, Some e) else
  Ret (Some (NewResult (DataBool exist')), None).

End Handlers.

End handlers.

Arguments config.Validate {IP} net_ParseIP cfg.

(** ** Concrete collaborators

    Instances of what the two packages take from elsewhere, for running the
    definitions on concrete inputs. *)

Module Fixtures.

Import types handlers.

(** Dotted-decimal IPv4 texts, the way [net.ParseIP] reads them: four
    fields of one to three digits, no leading zero, each at most 255. *)
Fixpoint split_dots (cur : string) (s : string) : list string :=
  match s with
  | EmptyString => [cur]
  | String c s' =>
      if Ascii.eqb c "."%char then cur :: split_dots "" s'
      else split_dots (cur +:+ String c "") s'
  end.

Definition digit (c : Ascii.ascii) : option Z :=
  let n := Z.of_nat (Ascii.nat_of_ascii c) in
  if bool_decide (48 ≤ n ≤ 57) then Some (n - 48) else None.

Fixpoint decimal (acc : Z) (s : string) : option Z :=
  match s with
  | EmptyString => Some acc
  | String c s' => d ← digit c; decimal (10 * acc + d) s'
  end.

Definition octet (s : string) : option Z :=
  match s with
  | EmptyString => None
  | String c s' =>
      if bool_decide (3 < String.length s)%nat then None
      else if Ascii.eqb c "0"%char && negb (bool_decide (s' = "")) then None
      else n ← decimal 0 s; if bool_decide (n ≤ 255) then Some n else None
  end.

Definition ParseIPv4 (s : string) : option (list Z) :=
  match split_dots "" s with
  | [a; b; c; d] =>
      a ← octet a; b ← octet b; c ← octet c; d ← octet d; Some [a; b; c; d]
  | _ => None
  end.

(** The level names of zerolog; any other text is reported as unknown. *)
Definition ParseLevel (levelStr : string) : zerolog.Level * option error :=
  if bool_decide (levelStr = "trace") then (zerolog.TraceLevel, None)
  else if bool_decide (levelStr = "debug") then (zerolog.DebugLevel, None)
  else if bool_decide (levelStr = "info") then (zerolog.InfoLevel, None)
  else if bool_decide (levelStr = "warn") then (zerolog.WarnLevel, None)
  else if bool_decide (levelStr = "error") then (zerolog.ErrorLevel, None)
  else if bool_decide (levelStr = "fatal") then (zerolog.FatalLevel, None)
  else if bool_decide (levelStr = "panic") then (zerolog.PanicLevel, None)
  else if bool_decide (levelStr = "disabled") then (zerolog.Disabled, None)
  else if bool_decide (levelStr = "") then (zerolog.NoLevel, None)
  else (zerolog.NoLevel,
        Some (errorString ("Unknown Level String: '" +:+ levelStr
                           +:+ "', defaulting to NoLevel"))).

Definition cfg0 : config.ServerConfig :=
  {| config.Host := "127.0.0.1"; config.Port := 8090;
     config.WriteTimeout := 60; config.ReadTimeout := 60;
     config.IdleTimeout := 60; config.AllowedOrigins := ["*"];
     config.LogLevel := "debug" |}.

Definition with_LogLevel (level : string) (cfg : config.ServerConfig)
    : config.ServerConfig :=
  {| config.Host := config.Host cfg; config.Port := config.Port cfg;
     config.WriteTimeout := config.WriteTimeout cfg;
     config.ReadTimeout := config.ReadTimeout cfg;
     config.IdleTimeout := config.IdleTimeout cfg;
     config.AllowedOrigins := config.AllowedOrigins cfg;
     config.LogLevel := level |}.

(** The texts of the delegation states and of the error code. *)
Definition Unbonded : string := "unbonded".
Definition Active : string := "active".
Definition BadRequest : ErrorCode := "BAD_REQUEST".

Definition is_hex_digit (c : Ascii.ascii) : bool :=
  let n := Z.of_nat (Ascii.nat_of_ascii c) in
  bool_decide (48 ≤ n ≤ 57) || bool_decide (97 ≤ n ≤ 102)
  || bool_decide (65 ≤ n ≤ 70).

Fixpoint all_hex (s : string) : bool :=
  match s with
  | EmptyString => true
  | String c s' => is_hex_digit c && all_hex s'
  end.

(** Modelled from the spec: [parsePublicKeyQuery] is not under src/.  The
    raw text fails validation if it is empty, is not hexadecimal, or does
    not have the length of a compressed public key, 33 bytes
    (section 4.1). *)
Definition parsePublicKeyQuery (request : Request) (queryName : string)
    : string * option Error :=
  let pkHex := Values_Get (URL_Query request) queryName in
  if bool_decide (pkHex = "") then
    ("", Some (NewErrorWithMsg http_StatusBadRequest BadRequest
                 (queryName +:+ " is required")))
  else if all_hex pkHex && bool_decide (String.length pkHex = 66%nat) then
    (pkHex, None)
  else
    ("", Some (NewErrorWithMsg http_StatusBadRequest BadRequest
                 "invalid public key format")).

(** Network parameters: the human-readable part of the addresses. *)
Definition NetParams : Type := string.

(** Modelled from the spec: [parseBtcAddressQuery] is not under src/.  The
    raw text fails validation if it is empty or is not an address of the
    required kind under the network parameter (section 4.1); the decoding
    is kept to the prefix of a Taproot address. *)
Definition parseBtcAddressQuery (request : Request) (queryName : string)
    (netParam : NetParams) : string * option Error :=
  let address := Values_Get (URL_Query request) queryName in
  if bool_decide (address = "") then
    ("", Some (NewErrorWithMsg http_StatusBadRequest BadRequest
                 (queryName +:+ " is required")))
  else if String.prefix (netParam +:+ "1p") address then (address, None)
  else
    ("", Some (NewErrorWithMsg http_StatusBadRequest BadRequest
                 "invalid btc address")).

Definition InternalServiceError : Error :=
  {| Err := errorString "Internal service error";
     StatusCode := 500; Code := "INTERNAL_SERVICE_ERROR" |}.

Definition delegation (tx staker state : string) (createdAt : Z) : Delegation :=
  {| StakingTxHashHex := tx; StakerPkHex := staker;
     FinalityProviderPkHex :=
       "03d5a0bb72d71993e435d6c5a70e2aa4db500a62cfaae33c56050deefee64ec0aa";
     State := state; CreatedAtSeconds := createdAt |}.

Definition stakerA : string :=
  "02aaaaaaaaaaaaaaaaaaaaaaaaaaaaaaaaaaaaaaaaaaaaaaaaaaaaaaaaaaaaaaaaaa".
Definition stakerB : string :=
  "02bbbbbbbbbbbbbbbbbbbbbbbbbbbbbbbbbbbbbbbbbbbbbbbbbbbbbbbbbbbbbbbbbb".

(** The delegations of the end-to-end scenario of section 8. *)
Definition scenario : list Delegation :=
  [ delegation "tx1" stakerA Active 1700000000;
    delegation "tx2" stakerA Unbonded 1700000100;
    delegation "tx3" stakerB Active 1700000200 ].

(** A service layer over a fixed table of delegations, with the clock
    stopped at [now]. *)
Definition world (table : list Delegation) (now : Z) : World :=
  fun c =>
    match c return Reply c with
    | DelegationsByFinalityProviderPkHex _ _ => (table, None)
    | StakerCountByStakerPk _ pk =>
        (Z.of_nat (length (List.filter
                             (fun d => bool_decide (StakerPkHex d = pk)) table)),
         None)
    | CheckStakerHasActiveDelegationByAddress _ _ afterTimestamp =>
        (existsb (fun d => bool_decide (State d = Active)
                           && bool_decide (afterTimestamp ≤ CreatedAtSeconds d))
                 table,
         None)
    | log_Debug_Msgf _ _ _ => tt
    | time_Now_Unix => now
    end.

(** A service layer whose every call fails, handing back what it had
    gathered so far. *)
Definition failing_world (table : list Delegation) (now : Z) : World :=
  fun c =>
    match c return Reply c with
    | DelegationsByFinalityProviderPkHex _ _ => (table, Some InternalServiceError)
    | StakerCountByStakerPk _ _ => (1, Some InternalServiceError)
    | CheckStakerHasActiveDelegationByAddress _ _ _ =>
        (true, Some InternalServiceError)
    | log_Debug_Msgf _ _ _ => tt
    | time_Now_Unix => now
    end.

Definition query (key value : string) : gmap string (list string) :=
  {[ key := [value] ]}.

(** A request for the counts of a finality provider. *)
Definition fp_request : Request :=
  {| URL_Query :=
       query "finality_provider_pk_hex"
         "03d5a0bb72d71993e435d6c5a70e2aa4db500a62cfaae33c56050deefee64ec0aa";
     Request_Context := 7%N |}.

(** A request for the existence check. *)
Definition check_request (timeframe : string) : Request :=
  {| URL_Query :=
       <[ "timeframe" := [timeframe] ]>
         (query "address"
            "tb1pyqjxwcdv6pfcaj2l565ludclz2pwu2k5azs6uznz8kml74kkma6qm0gzlv");
     Request_Context := 8%N |}.

Definition signet_handler : Handler NetParams :=
  {| config_Server_BTCNetParam := "tb" |}.

End Fixtures.

(** ** Package handlers: the paged listing of a staker's delegations

    [GetStakerDelegations] makes one call, [h.services.DelegationsByStakerPk],
    and nothing else leaves the handler; the method is passed as a function.
    The view type of a delegation, the pagination parser and the constructor
    of the paged result are declared outside src/ and are parameters. *)

Module listing.

Import types handlers.

Section GetStakerDelegations.

Variable DelegationPublic : Type.
Variable PagedResult : Type.
Variable parsePublicKeyQuery : Request -> string -> string * option Error.
Variable parsePaginationQuery : Request -> string * option Error.
Variable NewResultWithPagination : list DelegationPublic -> string -> PagedResult.
Variable DelegationsByStakerPk :
  Context -> string -> string -> list DelegationPublic * string * option Error.

Definition GetStakerDelegations (request : Request)
    : option PagedResult * option Error :=
  let '(stakerBtcPk, err) := parsePublicKeyQuery request "staker_btc_pk" in
  if err is Some e then (None, Some e) else
  let '(paginationKey, err) := parsePaginationQuery request in
  if err is Some e then (None, Some e) else
  let '(delegations, newPaginationKey, err) :=
    DelegationsByStakerPk (Request_Context request) stakerBtcPk paginationKey in
  if err is Some e then (None, Some e) else
  (Some (NewResultWithPagination delegations newPaginationKey), None).

End GetStakerDelegations.

End listing.

Arguments listing.GetStakerDelegations {DelegationPublic PagedResult}
  parsePublicKeyQuery parsePaginationQuery NewResultWithPagination
  DelegationsByStakerPk request.

(** ** Further concrete inputs *)

Module Samples.

Import types handlers.

(** Three records of staker A and two of staker B, two of them unbonded. *)
Definition ledger : list Delegation :=
  [ Fixtures.delegation "tx1" Fixtures.stakerA Fixtures.Active 1700000000;
    Fixtures.delegation "tx2" Fixtures.stakerA Fixtures.Unbonded 1700000100;
    Fixtures.delegation "tx3" Fixtures.stakerB Fixtures.Active 1700000200;
    Fixtures.delegation "tx4" Fixtures.stakerA Fixtures.Active 1700000300;
    Fixtures.delegation "tx5" Fixtures.stakerB Fixtures.Unbonded 1700000400 ].

(** A request for the existence check that carries no timeframe. *)
Definition check_request_no_timeframe : Request :=
  {| URL_Query :=
       Fixtures.query "address"
         "tb1pyqjxwcdv6pfcaj2l565ludclz2pwu2k5azs6uznz8kml74kkma6qm0gzlv";
     Request_Context := 9%N |}.

(** A request for the existence check whose timeframe is given twice. *)
Definition check_request_two_timeframes : Request :=
  {| URL_Query :=
       <[ "timeframe" := ["today"; "tomorrow"] ]>
         (Fixtures.query "address"
            "tb1pyqjxwcdv6pfcaj2l565ludclz2pwu2k5azs6uznz8kml74kkma6qm0gzlv");
     Request_Context := 9%N |}.

(** A request for the listing of staker A, from the first page on. *)
Definition listing_request : Request :=
  {| URL_Query :=
       Fixtures.query "staker_btc_pk"
         "02e3b9c1a5d7f80246b13d57f9a0c2e4b6d8f1a3c5e7092b4d6f8a1c3e5f7092b4";
     Request_Context := 10%N |}.

(** The pagination key as it stands in the query; every text is taken. *)
Definition parsePaginationQuery (request : Request) : string * option Error :=
  (Values_Get (URL_Query request) "pagination_key", None).

(** A service that knows one page of two transactions and no further page. *)
Definition DelegationsByStakerPk (ctx : Context) (stakerPk paginationKey : string)
    : list string * string * option Error :=
  (["tx1"; "tx4"], "", None).

(** A service that is down. *)
Definition DelegationsByStakerPk_down (ctx : Context)
    (stakerPk paginationKey : string) : list string * string * option Error :=
  (["tx1"], "next", Some Fixtures.InternalServiceError).

End Samples.

(** ** Server configuration *)

Example Validate_cfg0 : config.Validate Fixtures.ParseIPv4 Fixtures.cfg0 = None.
Proof. reflexivity. Qed.

Example ParseIPv4_rejects :
  Fixtures.ParseIPv4 "localhost" = None ∧ Fixtures.ParseIPv4 "256.0.0.1" = None
  ∧ Fixtures.ParseIPv4 "10.0.0.01" = None
  ∧ Fixtures.ParseIPv4 "10.0.0.1" = Some [10; 0; 0; 1].
Proof. repeat split; reflexivity. Qed.

Section ConfigFacts.

Import config.

Variable IP : Type.
Variable net_ParseIP : string -> option IP.
Variable zerolog_ParseLevel : string -> zerolog.Level * option error.

(** The checks of [Validate], one after the other. *)
Lemma Validate_nil (cfg : ServerConfig) :
  Validate net_ParseIP cfg = None <->
  net_ParseIP (Host cfg) ≠ None
  ∧ 0 ≤ Port cfg ≤ 65535
  ∧ 0 ≤ WriteTimeout cfg ∧ 0 ≤ ReadTimeout cfg ∧ 0 ≤ IdleTimeout cfg.
Proof.
  unfold Validate.
  destruct (net_ParseIP (Host cfg)) as [ip|];
    [|split; [discriminate | intros [? _]; congruence]].
  repeat case_bool_decide; simpl;
    (split; [try discriminate; intros _; repeat split; (done || lia)
            | try reflexivity; intros (_ & ? & ? & ? & ?); lia]).
Qed.

Lemma Validate_fields (cfg cfg' : ServerConfig) :
  Host cfg' = Host cfg -> Port cfg' = Port cfg ->
  WriteTimeout cfg' = WriteTimeout cfg ->
  ReadTimeout cfg' = ReadTimeout cfg ->
  IdleTimeout cfg' = IdleTimeout cfg ->
  Validate net_ParseIP cfg' = Validate net_ParseIP cfg.
Proof. unfold Validate. by intros -> -> -> -> ->. Qed.

(** C9: [Validate] returns nil exactly when the host parses as an IP
    address, the port lies in 0..65535 and the three timeouts are not
    negative; whatever the allowed origins and the log level are, the
    outcome is the same. *)
Theorem Validate_accepts_iff (cfg : ServerConfig) :
  (Validate net_ParseIP cfg = None <->
     net_ParseIP (Host cfg) ≠ None
     ∧ 0 ≤ Port cfg ≤ 65535
     ∧ 0 ≤ WriteTimeout cfg ∧ 0 ≤ ReadTimeout cfg ∧ 0 ≤ IdleTimeout cfg)
  ∧ ∀ (origins : list string) (level : string),
      Validate net_ParseIP
        {| Host := Host cfg; Port := Port cfg;
           WriteTimeout := WriteTimeout cfg;
           ReadTimeout := ReadTimeout cfg;
           IdleTimeout := IdleTimeout cfg;
           AllowedOrigins := origins; LogLevel := level |}
      = Validate net_ParseIP cfg.
Proof.
  split; [apply Validate_nil|].
  intros origins level. by apply Validate_fields.
Qed.

(** The outcome of [ValidateServerLogLevel], by cases on the level text and
    on what the parser says about it. *)
Lemma ValidateServerLogLevel_cases (cfg : ServerConfig) :
  (LogLevel cfg = "" ∧ ValidateServerLogLevel zerolog_ParseLevel cfg = None)
  ∨ (LogLevel cfg ≠ "" ∧ ∃ level,
       (∃ e, zerolog_ParseLevel (LogLevel cfg) = (level, Some e)
             ∧ ValidateServerLogLevel zerolog_ParseLevel cfg
               = Some (fmt_Errorf_w "invalid log level: " e))
       ∨ (zerolog_ParseLevel (LogLevel cfg) = (level, None)
          ∧ (level < zerolog.DebugLevel ∨ zerolog.FatalLevel < level)
          ∧ ValidateServerLogLevel zerolog_ParseLevel cfg
            = Some (errorString
                      "only log levels from debug to fatal are supported"))
       ∨ (zerolog_ParseLevel (LogLevel cfg) = (level, None)
          ∧ zerolog.DebugLevel ≤ level ≤ zerolog.FatalLevel
          ∧ ValidateServerLogLevel zerolog_ParseLevel cfg = None)).
Proof.
  unfold ValidateServerLogLevel.
  case_bool_decide as Hempty; [by left|right; split; [done|]].
  destruct (zerolog_ParseLevel (LogLevel cfg)) as [level [e|]];
    exists level; [left; by exists e|right].
  repeat case_bool_decide; simpl; [left|left|left|right];
    (split; [done|split; [lia|done]]).
Qed.

(** C10: the unset level is accepted; a level that is set is accepted
    exactly when it parses and lies between debug and fatal; every other
    text is answered with an error, among them the texts of the trace level
    and of the disabled level. *)
Theorem ValidateServerLogLevel_accepts_iff (cfg : ServerConfig) :
  (ValidateServerLogLevel zerolog_ParseLevel cfg = None <->
     LogLevel cfg = ""
     ∨ ∃ level, zerolog_ParseLevel (LogLevel cfg) = (level, None)
                ∧ zerolog.DebugLevel ≤ level ≤ zerolog.FatalLevel)
  ∧ (∀ level e, LogLevel cfg ≠ "" ->
       zerolog_ParseLevel (LogLevel cfg) = (level, Some e) ->
       ValidateServerLogLevel zerolog_ParseLevel cfg
       = Some (fmt_Errorf_w "invalid log level: " e))
  ∧ (∀ level, LogLevel cfg ≠ "" ->
       zerolog_ParseLevel (LogLevel cfg) = (level, None) ->
       level = zerolog.TraceLevel ∨ level = zerolog.Disabled ->
       ValidateServerLogLevel zerolog_ParseLevel cfg
       = Some (errorString
                 "only log levels from debug to fatal are supported")).
Proof.
  destruct (ValidateServerLogLevel_cases cfg)
    as [[Hempty Hv]|[Hset [level [[e [Hp Hv]]|[(Hp & Hr & Hv)|(Hp & Hr & Hv)]]]]];
    rewrite Hv; (split; [|split]).
  - split; [by left|done].
  - done.
  - done.
  - split; [done|]. intros [?|(l & Hl & ?)]; [done|]. congruence.
  - intros l e' _ Hl. congruence.
  - intros l _ Hl. congruence.
  - split; [done|]. intros [?|(l & Hl & ?)]; [done|].
    assert (l = level) by congruence. subst l. lia.
  - intros l e' _ Hl. congruence.
  - done.
  - split; [|done]. intros _. right. by exists level.
  - intros l e' _ Hl. congruence.
  - intros l _ Hl [Ht|Ht]; assert (l = level) by congruence; subst;
      unfold zerolog.DebugLevel, zerolog.FatalLevel, zerolog.TraceLevel,
        zerolog.Disabled in *; lia.
Qed.

End ConfigFacts.

(** The trace level is set, parses, and is turned down. *)
Lemma ValidateServerLogLevel_trace_witness :
  config.ValidateServerLogLevel Fixtures.ParseLevel
    (Fixtures.with_LogLevel "trace" Fixtures.cfg0)
  = Some (errorString "only log levels from debug to fatal are supported").
Proof.
  apply (proj2 (proj2 (ValidateServerLogLevel_accepts_iff Fixtures.ParseLevel
                         (Fixtures.with_LogLevel "trace" Fixtures.cfg0)))
           zerolog.TraceLevel).
  - discriminate.
  - reflexivity.
  - left; reflexivity.
Defined.

(** ** Handlers: trying the definitions *)

Import types handlers.

Example scenario_counts :
  stakerCount Fixtures.Unbonded Fixtures.scenario = 2
  ∧ delegationsCount Fixtures.Unbonded Fixtures.scenario = 2.
Proof. vm_compute. done. Qed.

Example fp_request_run :
  run (Fixtures.world Fixtures.scenario 1700000300)
    (GetStakerCountByFinalityProvider Fixtures.Unbonded
       Fixtures.parsePublicKeyQuery Fixtures.fp_request)
  = (Some (NewResult (DataInt 2)), None).
Proof. vm_compute. done. Qed.

Example check_request_today :
  run (Fixtures.world Fixtures.scenario 1700000300)
    (CheckStakerDelegationExist Fixtures.BadRequest Fixtures.NetParams
       Fixtures.parseBtcAddressQuery Fixtures.signet_handler
       (Fixtures.check_request "today"))
  = (Some (NewResult (DataBool true)), None).
Proof. vm_compute. done. Qed.

#[local] Set Warnings "-clear-no-such-hyp".

(** ** Handlers: running a program *)

Lemma run_bind {A B : Type} (w : World) (p : Prog A) (f : A -> Prog B) :
  run w (p ≫= f) = run w (f (run w p)).
Proof.
  unfold mbind, Prog_bind.
  induction p as [a|c k IH]; simpl; [done|apply IH].
Qed.

Lemma calls_bind {A B : Type} (w : World) (p : Prog A) (f : A -> Prog B) :
  calls w (p ≫= f) = calls w p ++ calls w (f (run w p)).
Proof.
  unfold mbind, Prog_bind.
  induction p as [a|c k IH]; simpl; [done|by rewrite IH].
Qed.

Lemma run_call (w : World) (c : Call) : run w (call c) = w c.
Proof. reflexivity. Qed.

Lemma calls_call (w : World) (c : Call) : calls w (call c) = [c].
Proof. reflexivity. Qed.

Ltac run_step :=
  repeat first
    [ rewrite run_bind | rewrite calls_bind
    | rewrite run_call | rewrite calls_call ];
  simpl.

(** ** Handlers: the two counting loops *)

Section CountingFacts.

Variable Unbonded_ToString : string.

Local Abbreviation countable := (fun d : Delegation => State d ≠ Unbonded_ToString).
Local Abbreviation countMap_of := (countMap_of Unbonded_ToString).
Local Abbreviation stakerCount := (stakerCount Unbonded_ToString).
Local Abbreviation delegationsCount := (delegationsCount Unbonded_ToString).

(** The keys of the map after the loop: those it started with and the
    stakers of the records that are not unbonded. *)
Lemma countMap_fold_dom (delegations : list Delegation) (m : gmap string Z) :
  dom (fold_left (countMap_step Unbonded_ToString) delegations m)
  = dom m ∪ list_to_set (StakerPkHex <$> filter countable delegations).
Proof.
  revert m. induction delegations as [|d ds IH]; intros m; simpl.
  - set_solver.
  - rewrite IH. unfold countMap_step.
    case_bool_decide as Hst.
    + rewrite filter_cons_False by (intros ?; done). done.
    + rewrite filter_cons_True by done. rewrite dom_insert_L. set_solver.
Qed.

Lemma stakerCount_set (delegations : list Delegation) :
  stakerCount delegations
  = Z.of_nat (size (list_to_set (StakerPkHex <$> filter countable delegations)
                    : gset string)).
Proof.
  unfold handlers.stakerCount, handlers.countMap_of.
  rewrite <- size_dom, countMap_fold_dom, dom_empty_L.
  by rewrite (left_id_L ∅ (∪)).
Qed.

Lemma countSlice_fold (delegations : list Delegation) (acc : list string) :
  fold_left (countSlice_step Unbonded_ToString) delegations acc
  = acc ++ (StakerPkHex <$> filter countable delegations).
Proof.
  revert acc. induction delegations as [|d ds IH]; intros acc; simpl.
  - by rewrite app_nil_r.
  - rewrite IH. unfold countSlice_step.
    case_bool_decide as Hst.
    + rewrite filter_cons_False by (intros ?; done). done.
    + rewrite filter_cons_True by done. by rewrite <- app_assoc.
Qed.

Lemma delegationsCount_filter (delegations : list Delegation) :
  delegationsCount delegations
  = Z.of_nat (length (filter countable delegations)).
Proof.
  unfold handlers.delegationsCount, countSlice_of.
  by rewrite countSlice_fold, app_nil_l, length_fmap.
Qed.

Lemma elem_of_countable_stakers (delegations : list Delegation) (s : string) :
  s ∈ (list_to_set (StakerPkHex <$> filter countable delegations) : gset string)
  <-> ∃ d, d ∈ delegations ∧ State d ≠ Unbonded_ToString ∧ StakerPkHex d = s.
Proof.
  rewrite elem_of_list_to_set, list_elem_of_fmap. split.
  - intros (d & -> & Hd). apply list_elem_of_filter in Hd as [Hst Hd].
    by exists d.
  - intros (d & Hd & Hst & <-). exists d. split; [done|].
    by apply list_elem_of_filter.
Qed.

(** The count is the length of any duplicate-free enumeration of the
    stakers that have a record which is not unbonded. *)
Lemma stakerCount_enumeration (delegations : list Delegation) (l : list string) :
  NoDup l ->
  (∀ s, s ∈ l <->
        ∃ d, d ∈ delegations ∧ State d ≠ Unbonded_ToString ∧ StakerPkHex d = s) ->
  stakerCount delegations = Z.of_nat (length l).
Proof.
  intros Hnodup Hl. rewrite stakerCount_set.
  rewrite <- (size_list_to_set (C := gset string) l) by done.
  do 2 f_equal. apply set_eq. intros s.
  by rewrite elem_of_countable_stakers, elem_of_list_to_set, Hl.
Qed.

(** A staker with a record that is not unbonded adds exactly one to the
    count, however many records it has. *)
Lemma stakerCount_staker_once (delegations : list Delegation) (s : string) :
  (∃ d, d ∈ delegations ∧ State d ≠ Unbonded_ToString ∧ StakerPkHex d = s) ->
  stakerCount delegations
  = 1 + stakerCount (filter (fun d => StakerPkHex d ≠ s) delegations).
Proof.
  intros Hs. rewrite !stakerCount_set.
  set (rest := list_to_set
                 (StakerPkHex <$>
                    filter countable
                      (filter (fun d => StakerPkHex d ≠ s) delegations))
               : gset string).
  assert (Hsplit :
    (list_to_set (StakerPkHex <$> filter countable delegations) : gset string)
    = {[s]} ∪ rest).
  { apply set_eq. intros x.
    rewrite elem_of_union, elem_of_singleton.
    unfold rest. rewrite !elem_of_countable_stakers. split.
    - intros (d & Hd & Hst & <-).
      destruct (decide (StakerPkHex d = s)) as [|Hne]; [by left|right].
      exists d. split; [|done]. by apply list_elem_of_filter.
    - intros [->|(d & Hd & Hst & <-)]; [done|].
      apply list_elem_of_filter in Hd as [_ Hd]. by exists d. }
  assert (Hfresh : s ∉ rest).
  { unfold rest. rewrite elem_of_countable_stakers.
    intros (d & Hd & _ & Heq).
    apply list_elem_of_filter in Hd as [Hne _]. done. }
  rewrite Hsplit, size_union by set_solver.
  rewrite size_singleton. lia.
Qed.

(** The count does not depend on the order of the records. *)
Lemma stakerCount_Permutation (delegations delegations' : list Delegation) :
  delegations ≡ₚ delegations' ->
  stakerCount delegations' = stakerCount delegations.
Proof.
  intros Hperm. rewrite !stakerCount_set. do 2 f_equal.
  apply set_eq. intros s. rewrite !elem_of_countable_stakers.
  by setoid_rewrite Hperm.
Qed.

(** An unbonded record does not pass the filter, wherever it stands. *)
Lemma filter_countable_insert (delegations : list Delegation) (i : nat)
    (d : Delegation) :
  State d = Unbonded_ToString ->
  filter countable (take i delegations ++ d :: drop i delegations)
  = filter countable delegations.
Proof.
  intros Hd. rewrite filter_app, filter_cons_False by (intros ?; done).
  by rewrite <- filter_app, take_drop.
Qed.

End CountingFacts.

Arguments CheckStakerDelegationExist BadRequest {NetParams}
  parseBtcAddressQuery h request.

(** ** Handlers: what a run returns and which calls it makes *)

Section HandlerFacts.

Variable Unbonded_ToString : string.
Variable BadRequest : ErrorCode.
Variable NetParams : Type.
Variable parsePublicKeyQuery : Request -> string -> string * option Error.
Variable parseBtcAddressQuery :
  Request -> string -> NetParams -> string * option Error.
Variable w : World.

Local Abbreviation fetch request pk :=
  (w (DelegationsByFinalityProviderPkHex (Request_Context request) pk)).

Lemma GetStakerCountByFinalityProvider_run (request : Request) :
  run w (GetStakerCountByFinalityProvider Unbonded_ToString
           parsePublicKeyQuery request)
  = let '(pk, err) := parsePublicKeyQuery request "finality_provider_pk_hex" in
    match err with
    | Some e => (None, Some e)
    | None =>
        match fetch request pk with
        | (_, Some e) => (None, Some e)
        | (delegations, None) =>
            (Some (NewResult
                     (DataInt (stakerCount Unbonded_ToString delegations))),
             None)
        end
    end.
Proof.
  unfold GetStakerCountByFinalityProvider.
  destruct (parsePublicKeyQuery _ _) as [pk [e|]]; [done|].
  run_step. by destruct (fetch request pk) as [ds [e|]].
Qed.

Lemma GetDelegationsCountByFinalityProvider_run (request : Request) :
  run w (GetDelegationsCountByFinalityProvider Unbonded_ToString
           parsePublicKeyQuery request)
  = let '(pk, err) := parsePublicKeyQuery request "finality_provider_pk_hex" in
    match err with
    | Some e => (None, Some e)
    | None =>
        match fetch request pk with
        | (_, Some e) => (None, Some e)
        | (delegations, None) =>
            (Some (NewResult
                     (DataInt (delegationsCount Unbonded_ToString delegations))),
             None)
        end
    end.
Proof.
  unfold GetDelegationsCountByFinalityProvider.
  destruct (parsePublicKeyQuery _ _) as [pk [e|]]; [done|].
  run_step. by destruct (fetch request pk) as [ds [e|]].
Qed.

Lemma GetStakerCountByStakerPk_run (request : Request) :
  run w (GetStakerCountByStakerPk parsePublicKeyQuery request)
  = let '(pk, err) := parsePublicKeyQuery request "finality_provider_pk_hex" in
    match err with
    | Some e => (None, Some e)
    | None =>
        match w (StakerCountByStakerPk (Request_Context request) pk) with
        | (_, Some e) => (None, Some e)
        | (count, None) => (Some (NewResult (DataInt count)), None)
        end
    end.
Proof.
  unfold GetStakerCountByStakerPk.
  destruct (parsePublicKeyQuery _ _) as [pk [e|]]; [done|].
  run_step.
  by destruct (w (StakerCountByStakerPk (Request_Context request) pk))
    as [count [e|]].
Qed.

Lemma GetStakerCountByStakerPk_calls (request : Request) :
  calls w (GetStakerCountByStakerPk parsePublicKeyQuery request)
  = let '(pk, err) := parsePublicKeyQuery request "finality_provider_pk_hex" in
    match err with
    | Some _ => []
    | None =>
        [ log_Debug_Msgf (Request_Context request)
            "GetStakerCountByStakerPk: finalityProviderPkHex:%s" [ArgString pk];
          StakerCountByStakerPk (Request_Context request) pk ]
    end.
Proof.
  unfold GetStakerCountByStakerPk.
  destruct (parsePublicKeyQuery _ _) as [pk [e|]]; [done|].
  run_step.
  by destruct (w (StakerCountByStakerPk (Request_Context request) pk))
    as [count [e|]].
Qed.

(** The start of the UTC day of the clock reading. *)
Lemma GetTodayStartTimestampInSeconds_run :
  run w GetTodayStartTimestampInSeconds
  = (w time_Now_Unix : Z) - (w time_Now_Unix : Z) mod 86400.
Proof. reflexivity. Qed.

Lemma parseTimeframeToAfterTimestamp_run (timeframe : string) :
  run w (parseTimeframeToAfterTimestamp BadRequest timeframe)
  = if bool_decide (timeframe = "") then (0, None)
    else if bool_decide (timeframe = "today") then
      ((w time_Now_Unix : Z) - (w time_Now_Unix : Z) mod 86400, None)
    else
      (0, Some {| Err := errorString "invalid timeframe value";
                  StatusCode := 400; Code := BadRequest |}).
Proof.
  unfold parseTimeframeToAfterTimestamp.
  by repeat case_bool_decide.
Qed.

Lemma CheckStakerDelegationExist_run (h : Handler NetParams) (request : Request) :
  run w (CheckStakerDelegationExist BadRequest parseBtcAddressQuery h request)
  = let '(address, err) :=
      parseBtcAddressQuery request "address" (config_Server_BTCNetParam h) in
    match err with
    | Some e => (None, Some e)
    | None =>
        match run w (parseTimeframeToAfterTimestamp BadRequest
                       (Values_Get (URL_Query request) "timeframe")) with
        | (_, Some e) => (None, Some e)
        | (afterTimestamp, None) =>
            match w (CheckStakerHasActiveDelegationByAddress
                       (Request_Context request) address afterTimestamp) with
            | (_, Some e) => (None, Some e)
            | (found, None) => (Some (NewResult (DataBool found)), None)
            end
        end
    end.
Proof.
  unfold CheckStakerDelegationExist.
  destruct (parseBtcAddressQuery _ _ _) as [address [e|]]; [done|].
  run_step.
  destruct (run w (parseTimeframeToAfterTimestamp _ _)) as [ts [e|]]; [done|].
  run_step.
  by destruct (w (CheckStakerHasActiveDelegationByAddress _ _ _))
    as [found [e|]].
Qed.

End HandlerFacts.

(** ** The counting operations *)

Section CountingOperations.

Variable Unbonded_ToString : string.
Variable parsePublicKeyQuery : Request -> string -> string * option Error.

Local Abbreviation stakerCount := (stakerCount Unbonded_ToString).
Local Abbreviation delegationsCount := (delegationsCount Unbonded_ToString).
Local Abbreviation GetStakerCountByFinalityProvider :=
  (GetStakerCountByFinalityProvider Unbonded_ToString parsePublicKeyQuery).
Local Abbreviation GetDelegationsCountByFinalityProvider :=
  (GetDelegationsCountByFinalityProvider Unbonded_ToString parsePublicKeyQuery).

(** C2: on the records the provider-keyed fetch returns, the distinct-staker
    operation answers with the number of distinct staker keys among the
    records that are not unbonded: the length of any duplicate-free list of
    exactly those keys.  A staker with at least one such record adds
    exactly one: the count is one more than the count without the records
    of that staker. *)
Theorem GetStakerCountByFinalityProvider_distinct_stakers
    (w : World) (request : Request) (pk : string)
    (delegations : list Delegation) :
  parsePublicKeyQuery request "finality_provider_pk_hex" = (pk, None) ->
  w (DelegationsByFinalityProviderPkHex (Request_Context request) pk)
    = (delegations, None) ->
  run w (GetStakerCountByFinalityProvider request)
    = (Some (NewResult (DataInt (stakerCount delegations))), None)
  ∧ (∀ l : list string,
       NoDup l ->
       (∀ s, s ∈ l <->
             ∃ d, d ∈ delegations ∧ State d ≠ Unbonded_ToString
                  ∧ StakerPkHex d = s) ->
       stakerCount delegations = Z.of_nat (length l))
  ∧ (∀ s : string,
       (∃ d, d ∈ delegations ∧ State d ≠ Unbonded_ToString
             ∧ StakerPkHex d = s) ->
       stakerCount delegations
       = 1 + stakerCount (filter (fun d => StakerPkHex d ≠ s) delegations)).
Proof.
  intros Hparse Hfetch. split; [|split].
  - by rewrite GetStakerCountByFinalityProvider_run, Hparse, Hfetch.
  - apply stakerCount_enumeration.
  - apply stakerCount_staker_once.
Qed.

(** C3: on the records the provider-keyed fetch returns, the
    delegation-count operation answers with the number of records that are
    not unbonded, two records of one staker counting twice.  On three
    records, the first two of one staker and the second of them unbonded,
    the third of another staker, both operations answer 2. *)
Theorem GetDelegationsCountByFinalityProvider_counts_records
    (w : World) (request : Request) (pk : string)
    (delegations : list Delegation) :
  parsePublicKeyQuery request "finality_provider_pk_hex" = (pk, None) ->
  w (DelegationsByFinalityProviderPkHex (Request_Context request) pk)
    = (delegations, None) ->
  run w (GetDelegationsCountByFinalityProvider request)
    = (Some (NewResult
               (DataInt (Z.of_nat (length (filter
                  (fun d => State d ≠ Unbonded_ToString) delegations))))),
       None)
  ∧ (∀ d1 d2 d3 : Delegation,
       delegations = [d1; d2; d3] ->
       StakerPkHex d2 = StakerPkHex d1 -> StakerPkHex d3 ≠ StakerPkHex d1 ->
       State d1 ≠ Unbonded_ToString -> State d2 = Unbonded_ToString ->
       State d3 ≠ Unbonded_ToString ->
       run w (GetDelegationsCountByFinalityProvider request)
         = (Some (NewResult (DataInt 2)), None)
       ∧ run w (GetStakerCountByFinalityProvider request)
         = (Some (NewResult (DataInt 2)), None)).
Proof.
  intros Hparse Hfetch.
  rewrite GetDelegationsCountByFinalityProvider_run,
    GetStakerCountByFinalityProvider_run, Hparse, Hfetch.
  rewrite delegationsCount_filter. split; [done|].
  intros d1 d2 d3 -> H21 H31 H1 H2 H3.
  rewrite filter_cons_True, filter_cons_False, filter_cons_True by naive_solver.
  split; [done|].
  rewrite (stakerCount_enumeration _ _ [StakerPkHex d1; StakerPkHex d3]).
  - done.
  - apply NoDup_cons. split; [set_solver|]. apply NoDup_singleton.
  - intros s. rewrite !elem_of_cons, elem_of_nil. split.
    + intros [->|[->|[]]]; [exists d1|exists d3]; set_solver.
    + intros (d & Hd & Hst & <-).
      apply elem_of_cons in Hd as [->|Hd]; [by left|].
      apply elem_of_cons in Hd as [->|Hd]; [done|].
      apply list_elem_of_singleton in Hd as ->. right; by left.
Qed.

(** C6: an unbonded record put anywhere into the sequence changes neither
    count, nor what the two operations answer. *)
Theorem unbonded_record_changes_no_count
    (w w' : World) (request : Request) (pk : string)
    (delegations : list Delegation) (i : nat) (d : Delegation) :
  State d = Unbonded_ToString ->
  parsePublicKeyQuery request "finality_provider_pk_hex" = (pk, None) ->
  w (DelegationsByFinalityProviderPkHex (Request_Context request) pk)
    = (delegations, None) ->
  w' (DelegationsByFinalityProviderPkHex (Request_Context request) pk)
    = (take i delegations ++ d :: drop i delegations, None) ->
  stakerCount (take i delegations ++ d :: drop i delegations)
    = stakerCount delegations
  ∧ delegationsCount (take i delegations ++ d :: drop i delegations)
    = delegationsCount delegations
  ∧ run w' (GetStakerCountByFinalityProvider request)
    = run w (GetStakerCountByFinalityProvider request)
  ∧ run w' (GetDelegationsCountByFinalityProvider request)
    = run w (GetDelegationsCountByFinalityProvider request).
Proof.
  intros Hd Hparse Hfetch Hfetch'.
  assert (Hs : stakerCount (take i delegations ++ d :: drop i delegations)
               = stakerCount delegations).
  { by rewrite !stakerCount_set, filter_countable_insert. }
  assert (Hn : delegationsCount (take i delegations ++ d :: drop i delegations)
               = delegationsCount delegations).
  { by rewrite !delegationsCount_filter, filter_countable_insert. }
  rewrite !GetStakerCountByFinalityProvider_run,
    !GetDelegationsCountByFinalityProvider_run, Hparse, Hfetch, Hfetch'.
  by rewrite Hs, Hn.
Qed.

(** C7: the distinct-staker count of a permutation of the records is the
    count of the records, and so is the answer of the operation. *)
Theorem stakerCount_order_independent
    (w w' : World) (request : Request) (pk : string)
    (delegations delegations' : list Delegation) :
  delegations ≡ₚ delegations' ->
  parsePublicKeyQuery request "finality_provider_pk_hex" = (pk, None) ->
  w (DelegationsByFinalityProviderPkHex (Request_Context request) pk)
    = (delegations, None) ->
  w' (DelegationsByFinalityProviderPkHex (Request_Context request) pk)
    = (delegations', None) ->
  stakerCount delegations' = stakerCount delegations
  ∧ run w' (GetStakerCountByFinalityProvider request)
    = run w (GetStakerCountByFinalityProvider request).
Proof.
  intros Hperm Hparse Hfetch Hfetch'.
  pose proof (stakerCount_Permutation Unbonded_ToString _ _ Hperm) as Hs.
  split; [done|].
  rewrite !GetStakerCountByFinalityProvider_run, Hparse, Hfetch, Hfetch'.
  by rewrite Hs.
Qed.

(** C8: when the fetch fails, both counting operations hand back that error
    and no result, whatever records came along with the error. *)
Theorem counting_fails_with_the_fetch
    (w : World) (request : Request) (pk : string)
    (partial : list Delegation) (e : Error) :
  parsePublicKeyQuery request "finality_provider_pk_hex" = (pk, None) ->
  w (DelegationsByFinalityProviderPkHex (Request_Context request) pk)
    = (partial, Some e) ->
  run w (GetStakerCountByFinalityProvider request) = (None, Some e)
  ∧ run w (GetDelegationsCountByFinalityProvider request) = (None, Some e).
Proof.
  intros Hparse Hfetch.
  by rewrite GetStakerCountByFinalityProvider_run,
    GetDelegationsCountByFinalityProvider_run, Hparse, Hfetch.
Qed.

End CountingOperations.

(** The scenario of section 8 behind a well-formed request. *)
Lemma GetStakerCountByFinalityProvider_distinct_stakers_witness :
  run (Fixtures.world Fixtures.scenario 1700000300)
    (GetStakerCountByFinalityProvider Fixtures.Unbonded
       Fixtures.parsePublicKeyQuery Fixtures.fp_request)
  = (Some (NewResult (DataInt (stakerCount Fixtures.Unbonded Fixtures.scenario))),
     None).
Proof.
  refine (proj1 (GetStakerCountByFinalityProvider_distinct_stakers
                   Fixtures.Unbonded Fixtures.parsePublicKeyQuery
                   (Fixtures.world Fixtures.scenario 1700000300)
                   Fixtures.fp_request
                   "03d5a0bb72d71993e435d6c5a70e2aa4db500a62cfaae33c56050deefee64ec0aa"
                   Fixtures.scenario _ _));
    vm_compute; reflexivity.
Defined.

Lemma GetDelegationsCountByFinalityProvider_counts_records_witness :
  run (Fixtures.world Fixtures.scenario 1700000300)
    (GetDelegationsCountByFinalityProvider Fixtures.Unbonded
       Fixtures.parsePublicKeyQuery Fixtures.fp_request)
  = (Some (NewResult (DataInt 2)), None)
  ∧ run (Fixtures.world Fixtures.scenario 1700000300)
      (GetStakerCountByFinalityProvider Fixtures.Unbonded
         Fixtures.parsePublicKeyQuery Fixtures.fp_request)
    = (Some (NewResult (DataInt 2)), None).
Proof.
  refine (proj2 (GetDelegationsCountByFinalityProvider_counts_records
                   Fixtures.Unbonded Fixtures.parsePublicKeyQuery
                   (Fixtures.world Fixtures.scenario 1700000300)
                   Fixtures.fp_request
                   "03d5a0bb72d71993e435d6c5a70e2aa4db500a62cfaae33c56050deefee64ec0aa"
                   Fixtures.scenario _ _)
            (Fixtures.delegation "tx1" Fixtures.stakerA Fixtures.Active 1700000000)
            (Fixtures.delegation "tx2" Fixtures.stakerA Fixtures.Unbonded 1700000100)
            (Fixtures.delegation "tx3" Fixtures.stakerB Fixtures.Active 1700000200)
            _ _ _ _ _ _);
    vm_compute; (reflexivity || discriminate).
Defined.

(** An unbonded record of staker B put after the first record. *)
Lemma unbonded_record_changes_no_count_witness :
  let d := Fixtures.delegation "tx4" Fixtures.stakerB Fixtures.Unbonded 1700000250 in
  let longer := take 1 Fixtures.scenario ++ d :: drop 1 Fixtures.scenario in
  stakerCount Fixtures.Unbonded longer
    = stakerCount Fixtures.Unbonded Fixtures.scenario
  ∧ delegationsCount Fixtures.Unbonded longer
    = delegationsCount Fixtures.Unbonded Fixtures.scenario.
Proof.
  intros d longer.
  refine ((fun H => conj (proj1 H) (proj1 (proj2 H)))
            (unbonded_record_changes_no_count
               Fixtures.Unbonded Fixtures.parsePublicKeyQuery
               (Fixtures.world Fixtures.scenario 1700000300)
               (Fixtures.world longer 1700000300)
               Fixtures.fp_request
               "03d5a0bb72d71993e435d6c5a70e2aa4db500a62cfaae33c56050deefee64ec0aa"
               Fixtures.scenario 1%nat d _ _ _ _));
    vm_compute; reflexivity.
Defined.

(** The first two records of the scenario in the other order. *)
Lemma stakerCount_order_independent_witness :
  let swapped :=
    [ Fixtures.delegation "tx2" Fixtures.stakerA Fixtures.Unbonded 1700000100;
      Fixtures.delegation "tx1" Fixtures.stakerA Fixtures.Active 1700000000;
      Fixtures.delegation "tx3" Fixtures.stakerB Fixtures.Active 1700000200 ] in
  stakerCount Fixtures.Unbonded swapped
  = stakerCount Fixtures.Unbonded Fixtures.scenario.
Proof.
  intros swapped.
  refine (proj1 (stakerCount_order_independent
                   Fixtures.Unbonded Fixtures.parsePublicKeyQuery
                   (Fixtures.world Fixtures.scenario 1700000300)
                   (Fixtures.world swapped 1700000300)
                   Fixtures.fp_request
                   "03d5a0bb72d71993e435d6c5a70e2aa4db500a62cfaae33c56050deefee64ec0aa"
                   Fixtures.scenario swapped _ _ _ _)).
  - apply perm_swap.
  - vm_compute; reflexivity.
  - vm_compute; reflexivity.
  - vm_compute; reflexivity.
Defined.

(** The service layer fails and hands back the records it had read. *)
Lemma counting_fails_with_the_fetch_witness :
  run (Fixtures.failing_world Fixtures.scenario 1700000300)
    (GetStakerCountByFinalityProvider Fixtures.Unbonded
       Fixtures.parsePublicKeyQuery Fixtures.fp_request)
  = (None, Some Fixtures.InternalServiceError)
  ∧ run (Fixtures.failing_world Fixtures.scenario 1700000300)
      (GetDelegationsCountByFinalityProvider Fixtures.Unbonded
         Fixtures.parsePublicKeyQuery Fixtures.fp_request)
    = (None, Some Fixtures.InternalServiceError).
Proof.
  refine (counting_fails_with_the_fetch
            Fixtures.Unbonded Fixtures.parsePublicKeyQuery
            (Fixtures.failing_world Fixtures.scenario 1700000300)
            Fixtures.fp_request
            "03d5a0bb72d71993e435d6c5a70e2aa4db500a62cfaae33c56050deefee64ec0aa"
            Fixtures.scenario Fixtures.InternalServiceError _ _);
    vm_compute; reflexivity.
Defined.

(** ** The staker count, the timeframe and the existence check *)

Section StakerOperations.

Variable BadRequest : ErrorCode.
Variable NetParams : Type.
Variable parsePublicKeyQuery : Request -> string -> string * option Error.
Variable parseBtcAddressQuery :
  Request -> string -> NetParams -> string * option Error.

(** C1, as the code has it: [GetStakerCountByStakerPk] takes its key from
    the query parameter [finality_provider_pk_hex].  When the key does not
    parse it hands back the parser's error and calls no service; otherwise
    its one service call is [StakerCountByStakerPk] with that key, whose
    count or error it hands back.  It never fetches the delegations of a
    finality provider. *)
Theorem GetStakerCountByStakerPk_calls_the_staker_count
    (w : World) (request : Request) :
  let keyed := parsePublicKeyQuery request "finality_provider_pk_hex" in
  let lookup := StakerCountByStakerPk (Request_Context request) (fst keyed) in
  let handler := GetStakerCountByStakerPk parsePublicKeyQuery request in
  Forall (fun c => is_provider_keyed_fetch c = false) (calls w handler)
  ∧ match snd keyed with
    | Some e => service_calls w handler = [] ∧ run w handler = (None, Some e)
    | None =>
        service_calls w handler = [lookup]
        ∧ run w handler
          = match w lookup with
            | (_, Some e) => (None, Some e)
            | (count, None) => (Some (NewResult (DataInt count)), None)
            end
    end.
Proof.
  intros keyed lookup handler. subst keyed lookup handler.
  unfold service_calls.
  rewrite GetStakerCountByStakerPk_calls, GetStakerCountByStakerPk_run.
  destruct (parsePublicKeyQuery _ _) as [pk [e|]]; simpl.
  - by split; [apply Forall_nil|].
  - by split; [repeat constructor|].
Qed.

(** C4: the empty timeframe resolves to 0, ["today"] to the start of the UTC
    day of the clock reading, both without an error; every other text is
    answered with the bad-request error "invalid timeframe value" of status
    400, so that no other text resolves. *)
Theorem parseTimeframeToAfterTimestamp_resolves (w : World) :
  let now : Z := w time_Now_Unix in
  let resolve timeframe :=
    run w (parseTimeframeToAfterTimestamp BadRequest timeframe) in
  resolve "" = (0, None)
  ∧ (∃ start, resolve "today" = (start, None)
              ∧ start mod 86400 = 0 ∧ start ≤ now < start + 86400)
  ∧ (∀ timeframe, timeframe ≠ "" -> timeframe ≠ "today" ->
       resolve timeframe
       = (0, Some (NewErrorWithMsg http_StatusBadRequest BadRequest
                     "invalid timeframe value"))
       ∧ StatusCode (NewErrorWithMsg http_StatusBadRequest BadRequest
                       "invalid timeframe value") = 400
       ∧ error_Error (Err (NewErrorWithMsg http_StatusBadRequest BadRequest
                             "invalid timeframe value"))
         = "invalid timeframe value")
  ∧ (∀ timeframe, snd (resolve timeframe) = None
                  <-> timeframe = "" ∨ timeframe = "today").
Proof.
  intros now resolve. subst resolve. simpl.
  repeat split.
  - exists (now - now mod 86400). split; [done|].
    pose proof (Z.mod_pos_bound now 86400 ltac:(lia)) as Hmod.
    split; [|lia].
    rewrite Zminus_mod, Zmod_mod, Z.sub_diag. done.
  - rewrite parseTimeframeToAfterTimestamp_run.
    by rewrite !bool_decide_eq_false_2.
  - rewrite parseTimeframeToAfterTimestamp_run.
    repeat case_bool_decide; simpl; intros; (done || auto).
  - rewrite parseTimeframeToAfterTimestamp_run.
    by intros [-> | ->].
Qed.

(** C5: the existence check fails exactly when the address does not parse,
    or the timeframe is neither empty nor ["today"], or the lookup fails;
    it then hands back the error of the first of these and no result.
    Otherwise it answers with the boolean of the lookup by the parsed
    address and the resolved lower bound. *)
Theorem CheckStakerDelegationExist_outcome
    (w : World) (h : Handler NetParams) (request : Request) :
  let parsed :=
    parseBtcAddressQuery request "address" (config_Server_BTCNetParam h) in
  let timeframe := Values_Get (URL_Query request) "timeframe" in
  let resolved := run w (parseTimeframeToAfterTimestamp BadRequest timeframe) in
  let lookup :=
    w (CheckStakerHasActiveDelegationByAddress (Request_Context request)
         (fst parsed) (fst resolved)) in
  let response :=
    run w (CheckStakerDelegationExist BadRequest parseBtcAddressQuery
             h request) in
  (snd response ≠ None <->
     snd parsed ≠ None
     ∨ (timeframe ≠ "" ∧ timeframe ≠ "today")
     ∨ snd lookup ≠ None)
  ∧ (snd response ≠ None -> fst response = None)
  ∧ (snd response = None ->
       response = (Some (NewResult (DataBool (fst lookup))), None))
  ∧ (∀ e, snd parsed = Some e -> response = (None, Some e))
  ∧ (snd parsed = None -> timeframe ≠ "" -> timeframe ≠ "today" ->
       response = (None, Some (NewErrorWithMsg http_StatusBadRequest BadRequest
                                 "invalid timeframe value")))
  ∧ (∀ e, snd parsed = None -> snd resolved = None -> snd lookup = Some e ->
       response = (None, Some e))
  ∧ fst resolved
    = (if bool_decide (timeframe = "today")
       then (w time_Now_Unix : Z) - (w time_Now_Unix : Z) mod 86400 else 0).
Proof using BadRequest NetParams parseBtcAddressQuery.
  clear parsePublicKeyQuery.
  intros parsed timeframe resolved lookup response.
  assert (Hresolved :
    resolved
    = if bool_decide (timeframe = "") then (0, None)
      else if bool_decide (timeframe = "today") then
        ((w time_Now_Unix : Z) - (w time_Now_Unix : Z) mod 86400, None)
      else (0, Some (NewErrorWithMsg http_StatusBadRequest BadRequest
                       "invalid timeframe value"))).
  { apply parseTimeframeToAfterTimestamp_run. }
  assert (Hresponse :
    response
    = match snd parsed with
      | Some e => (None, Some e)
      | None =>
          match snd resolved with
          | Some e => (None, Some e)
          | None =>
              match snd lookup with
              | Some e => (None, Some e)
              | None => (Some (NewResult (DataBool (fst lookup))), None)
              end
          end
      end).
  { subst response. rewrite CheckStakerDelegationExist_run.
    subst lookup. fold timeframe. fold resolved. subst parsed.
    destruct (parseBtcAddressQuery _ _ _) as [address [e|]]; [done|]. simpl.
    destruct resolved as [ts [e|]]; [done|]. simpl.
    by destruct (w (CheckStakerHasActiveDelegationByAddress _ _ _))
      as [found [e|]]. }
  clearbody parsed timeframe resolved lookup response.
  rewrite Hresponse, Hresolved. clear Hresponse Hresolved.
  destruct (snd parsed) as [e1|], (snd lookup) as [e3|];
    repeat case_bool_decide; subst; simpl;
    repeat split; intros; try done; try congruence; try naive_solver.
Qed.

End StakerOperations.

(** C1, as the claim has it, fails on a well-formed request: the one service
    call of [GetStakerCountByStakerPk] is the staker-keyed count, where
    [GetStakerCountByFinalityProvider] fetches by finality provider. *)
Lemma GetStakerCountByStakerPk_makes_no_provider_keyed_fetch :
  let w := Fixtures.world Fixtures.scenario 1700000300 in
  let pk :=
    "03d5a0bb72d71993e435d6c5a70e2aa4db500a62cfaae33c56050deefee64ec0aa" in
  service_calls w
    (GetStakerCountByStakerPk Fixtures.parsePublicKeyQuery Fixtures.fp_request)
  = [StakerCountByStakerPk 7%N pk]
  ∧ service_calls w
      (GetStakerCountByFinalityProvider Fixtures.Unbonded
         Fixtures.parsePublicKeyQuery Fixtures.fp_request)
    = [DelegationsByFinalityProviderPkHex 7%N pk]
  ∧ ¬ Forall (fun c => is_provider_keyed_fetch c = true)
        (service_calls w
           (GetStakerCountByStakerPk Fixtures.parsePublicKeyQuery
              Fixtures.fp_request)).
Proof.
  intros w pk. split; [|split].
  - vm_compute. reflexivity.
  - vm_compute. reflexivity.
  - intros Hall.
    assert (Hcalls :
      service_calls w
        (GetStakerCountByStakerPk Fixtures.parsePublicKeyQuery
           Fixtures.fp_request)
      = [StakerCountByStakerPk 7%N pk]) by (vm_compute; reflexivity).
    rewrite Hcalls in Hall. apply Forall_inv in Hall. discriminate Hall.
Qed.

(** A timeframe that is neither empty nor ["today"]. *)
Lemma parseTimeframeToAfterTimestamp_resolves_witness :
  run (Fixtures.world Fixtures.scenario 1700000300)
    (parseTimeframeToAfterTimestamp Fixtures.BadRequest "yesterday")
  = (0, Some (NewErrorWithMsg http_StatusBadRequest Fixtures.BadRequest
                "invalid timeframe value")).
Proof.
  refine (proj1 (proj1 (proj2 (proj2
            (parseTimeframeToAfterTimestamp_resolves Fixtures.BadRequest
               (Fixtures.world Fixtures.scenario 1700000300))))
            "yesterday" _ _));
    discriminate.
Defined.

(** A Taproot address with active delegations made today. *)
Lemma CheckStakerDelegationExist_outcome_witness :
  run (Fixtures.world Fixtures.scenario 1700000300)
    (CheckStakerDelegationExist Fixtures.BadRequest
       Fixtures.parseBtcAddressQuery Fixtures.signet_handler
       (Fixtures.check_request "today"))
  = (Some (NewResult (DataBool true)), None).
Proof.
  refine (proj1 (proj2 (proj2
            (CheckStakerDelegationExist_outcome Fixtures.BadRequest
               Fixtures.NetParams Fixtures.parseBtcAddressQuery
               (Fixtures.world Fixtures.scenario 1700000300)
               Fixtures.signet_handler (Fixtures.check_request "today")))) _).
  vm_compute. reflexivity.
Defined.

(** ** Further facts: the two counts against each other *)

Lemma size_list_to_set_le (l : list string) :
  (size (list_to_set l : gset string) ≤ length l)%nat.
Proof.
  induction l as [|x l IH].
  - by rewrite list_to_set_nil, size_empty.
  - rewrite list_to_set_cons, size_union_alt, size_singleton. simpl.
    pose proof (subseteq_size (list_to_set l ∖ {[x]}) (list_to_set l : gset string)
                  ltac:(set_solver)).
    lia.
Qed.

Lemma size_list_to_set_NoDup (l : list string) :
  size (list_to_set l : gset string) = length l <-> NoDup l.
Proof.
  split; [|apply size_list_to_set].
  induction l as [|x l IH]; [constructor|].
  rewrite list_to_set_cons. simpl. intros Hsize.
  pose proof (size_list_to_set_le l) as Hle.
  destruct (decide (x ∈ l)) as [Hin|Hnin].
  - assert ({[x]} ∪ list_to_set l = (list_to_set l : gset string)) as Heq
      by set_solver.
    rewrite Heq in Hsize. lia.
  - constructor; [done|]. apply IH.
    rewrite size_union, size_singleton in Hsize by set_solver. lia.
Qed.

Lemma wrap_int_add_l (a b : Z) : wrap_int (wrap_int a + b) = wrap_int (a + b).
Proof.
  unfold wrap_int.
  replace ((a + 2 ^ 63) mod 2 ^ 64 - 2 ^ 63 + b + 2 ^ 63)
    with ((a + 2 ^ 63) mod 2 ^ 64 + b) by lia.
  rewrite Zplus_mod_idemp_l. do 2 f_equal. lia.
Qed.

Lemma wrap_int_small (z : Z) : - 2 ^ 63 ≤ z < 2 ^ 63 -> wrap_int z = z.
Proof. intros Hz. unfold wrap_int. rewrite Z.mod_small; lia. Qed.

Section CountingLaws.

Variable Unbonded_ToString : string.

Local Abbreviation countable := (fun d : Delegation => State d ≠ Unbonded_ToString).
Local Abbreviation stakers delegations :=
  (StakerPkHex <$> filter countable delegations).
Local Abbreviation countMap_of := (countMap_of Unbonded_ToString).
Local Abbreviation stakerCount := (stakerCount Unbonded_ToString).
Local Abbreviation delegationsCount := (delegationsCount Unbonded_ToString).

Lemma delegationsCount_stakers (delegations : list Delegation) :
  delegationsCount delegations = Z.of_nat (length (stakers delegations)).
Proof. by rewrite delegationsCount_filter, length_fmap. Qed.

Lemma stakerCount_le_delegationsCount (delegations : list Delegation) :
  0 ≤ stakerCount delegations ≤ delegationsCount delegations.
Proof.
  rewrite stakerCount_set, delegationsCount_stakers.
  pose proof (size_list_to_set_le (stakers delegations)). lia.
Qed.

(** X1: the distinct-staker count is never above the delegation count, which
    is never above the number of records; neither is negative. *)
Theorem counts_ordered (delegations : list Delegation) :
  0 ≤ stakerCount delegations
  ∧ stakerCount delegations ≤ delegationsCount delegations
  ∧ delegationsCount delegations ≤ Z.of_nat (length delegations).
Proof.
  pose proof (stakerCount_le_delegationsCount delegations) as Hle.
  pose proof (length_filter countable delegations) as Hlen.
  rewrite delegationsCount_filter in *. lia.
Qed.

(** X2: either count is zero exactly when every record is unbonded, the
    empty sequence included. *)
Theorem counts_zero_iff (delegations : list Delegation) :
  (stakerCount delegations = 0
   <-> Forall (fun d => State d = Unbonded_ToString) delegations)
  ∧ (delegationsCount delegations = 0
     <-> Forall (fun d => State d = Unbonded_ToString) delegations).
Proof.
  assert (Hnil : length (filter countable delegations) = 0%nat
                 <-> Forall (fun d => State d = Unbonded_ToString) delegations).
  { induction delegations as [|d ds IH]; [done|].
    rewrite Forall_cons.
    destruct (decide (State d = Unbonded_ToString)) as [Hd|Hd].
    - rewrite filter_cons_False by (intros ?; done). naive_solver.
    - rewrite filter_cons_True by done. simpl. naive_solver. }
  rewrite stakerCount_set, delegationsCount_filter, <- Hnil.
  rewrite <- Nat2Z.inj_0, !Nat2Z.inj_iff.
  split; [|done]. split.
  - intros Hsize. apply size_empty_inv in Hsize.
    destruct (filter countable delegations) as [|d l]; [done|].
    exfalso. set_solver.
  - intros Hlen. apply nil_length_inv in Hlen. rewrite Hlen. apply size_empty.
Qed.

(** X3: the two counts agree exactly when no staker has two records that
    are not unbonded. *)
Theorem counts_agree_iff (delegations : list Delegation) :
  stakerCount delegations = delegationsCount delegations
  <-> NoDup (StakerPkHex <$>
               filter (fun d => State d ≠ Unbonded_ToString) delegations).
Proof.
  rewrite stakerCount_set, delegationsCount_stakers, Nat2Z.inj_iff.
  apply size_list_to_set_NoDup.
Qed.

(** X4: over two sequences put together the delegation count adds up, while
    the distinct-staker count lies between the larger of the two counts and
    their sum, and is the sum when no staker counts in both. *)
Theorem counts_app (delegations1 delegations2 : list Delegation) :
  delegationsCount (delegations1 ++ delegations2)
    = delegationsCount delegations1 + delegationsCount delegations2
  ∧ stakerCount delegations1 `max` stakerCount delegations2
    ≤ stakerCount (delegations1 ++ delegations2)
  ∧ stakerCount (delegations1 ++ delegations2)
    ≤ stakerCount delegations1 + stakerCount delegations2
  ∧ ((∀ d1 d2, d1 ∈ delegations1 -> d2 ∈ delegations2 ->
        State d1 ≠ Unbonded_ToString -> State d2 ≠ Unbonded_ToString ->
        StakerPkHex d1 ≠ StakerPkHex d2) ->
     stakerCount (delegations1 ++ delegations2)
     = stakerCount delegations1 + stakerCount delegations2).
Proof.
  rewrite !stakerCount_set, !delegationsCount_stakers.
  rewrite filter_app, fmap_app, length_app, list_to_set_app_L.
  set (X := list_to_set (stakers delegations1) : gset string).
  set (Y := list_to_set (stakers delegations2) : gset string).
  pose proof (subseteq_size X (X ∪ Y) ltac:(set_solver)) as HX.
  pose proof (subseteq_size Y (X ∪ Y) ltac:(set_solver)) as HY.
  pose proof (subseteq_size (Y ∖ X) Y ltac:(set_solver)) as HYX.
  pose proof (size_union_alt X Y) as Hunion.
  repeat split; try lia.
  intros Hdisjoint. rewrite size_union; [lia|].
  intros s HsX HsY. unfold X, Y in HsX, HsY.
  apply elem_of_countable_stakers in HsX as (d1 & Hd1 & Hst1 & Hs1).
  apply elem_of_countable_stakers in HsY as (d2 & Hd2 & Hst2 & Hs2).
  apply (Hdisjoint d1 d2); congruence.
Qed.

(** X5: the delegation count does not depend on the order of the records
    either. *)
Theorem delegationsCount_Permutation (delegations delegations' : list Delegation) :
  delegations ≡ₚ delegations' ->
  delegationsCount delegations' = delegationsCount delegations.
Proof.
  intros Hperm. rewrite !delegationsCount_filter. by rewrite Hperm.
Qed.

(** X16: when every record comes twice, the distinct-staker count is what it
    was and the delegation count doubles. *)
Theorem counts_of_doubled_records (delegations : list Delegation) :
  stakerCount (delegations ++ delegations) = stakerCount delegations
  ∧ delegationsCount (delegations ++ delegations)
    = 2 * delegationsCount delegations.
Proof.
  rewrite !stakerCount_set, !delegationsCount_stakers.
  rewrite filter_app, fmap_app, length_app, list_to_set_app_L.
  split; [|lia]. do 2 f_equal. set_solver.
Qed.

End CountingLaws.

(** ** Further facts: the counters of the map and a record that unbonds *)

Section CounterLaws.

Variable Unbonded_ToString : string.

Local Abbreviation countable := (fun d : Delegation => State d ≠ Unbonded_ToString).
Local Abbreviation countMap_step := (countMap_step Unbonded_ToString).
Local Abbreviation countMap_of := (countMap_of Unbonded_ToString).
Local Abbreviation stakerCount := (stakerCount Unbonded_ToString).
Local Abbreviation delegationsCount := (delegationsCount Unbonded_ToString).

(** The records of staker [s] that the loop counts. *)
Local Abbreviation counted s delegations :=
  (filter (fun d => State d ≠ Unbonded_ToString ∧ StakerPkHex d = s) delegations).

Lemma countMap_fold_lookup (delegations : list Delegation) (s : string)
    (m : gmap string Z) :
  fold_left countMap_step delegations m !! s
  = match counted s delegations with
    | [] => m !! s
    | _ => Some (wrap_int (default 0 (m !! s)
                           + Z.of_nat (length (counted s delegations))))
    end.
Proof.
  revert m. induction delegations as [|d ds IH]; intros m; [done|].
  simpl. rewrite IH. unfold handlers.countMap_step.
  case_bool_decide as Hst.
  { rewrite filter_cons_False by (intros [? _]; done). done. }
  destruct (decide (StakerPkHex d = s)) as [Hs|Hs].
  - rewrite filter_cons_True by done. subst s.
    rewrite lookup_insert_eq. simpl.
    destruct (counted (StakerPkHex d) ds) as [|d0 l] eqn:Hrest; simpl.
    + done.
    + f_equal. rewrite wrap_int_add_l. f_equal. lia.
  - rewrite filter_cons_False by (intros [_ ?]; done).
    by rewrite lookup_insert_ne.
Qed.

(** X6: after the loop the map has a key for a staker exactly when a record
    of that staker is not unbonded, and the counter under the key is the
    number of such records, wrapped to 64 bits; below 2^63 records it is that
    number itself. *)
Theorem countMap_counts_records (delegations : list Delegation) (s : string) :
  let n := Z.of_nat (length (counted s delegations)) in
  (countMap_of delegations !! s = None <-> n = 0)
  ∧ (n ≠ 0 -> countMap_of delegations !! s = Some (wrap_int n))
  ∧ (0 < n < 2 ^ 63 -> countMap_of delegations !! s = Some n).
Proof.
  intros n. subst n. unfold handlers.countMap_of.
  rewrite countMap_fold_lookup, lookup_empty. simpl.
  destruct (counted s delegations) as [|d l]; simpl.
  - repeat split; (done || lia).
  - repeat split; try done; try lia.
    intros Hn. by rewrite wrap_int_small by lia.
Qed.

Lemma stakers_cons_split (l1 l2 : list Delegation) (d : Delegation) :
  State d ≠ Unbonded_ToString ->
  (list_to_set (StakerPkHex <$> filter countable (l1 ++ d :: l2)) : gset string)
  = {[StakerPkHex d]}
    ∪ list_to_set (StakerPkHex <$> filter countable (l1 ++ l2)).
Proof.
  intros Hd. rewrite !filter_app, filter_cons_True by done.
  rewrite !fmap_app, fmap_cons, !list_to_set_app_L, list_to_set_cons.
  set_solver.
Qed.

(** X7: when a record that counted is replaced, in place, by an unbonded
    one, the delegation count drops by one; the distinct-staker count drops
    by one if that was the staker's only record that counted, and stays as
    it is otherwise. *)
Theorem counts_after_unbonding (l1 l2 : list Delegation) (d d' : Delegation) :
  State d ≠ Unbonded_ToString ->
  State d' = Unbonded_ToString ->
  delegationsCount (l1 ++ d' :: l2) = delegationsCount (l1 ++ d :: l2) - 1
  ∧ ((∃ o, o ∈ l1 ++ l2 ∧ State o ≠ Unbonded_ToString
           ∧ StakerPkHex o = StakerPkHex d) ->
     stakerCount (l1 ++ d' :: l2) = stakerCount (l1 ++ d :: l2))
  ∧ ((∀ o, o ∈ l1 ++ l2 -> State o ≠ Unbonded_ToString ->
           StakerPkHex o ≠ StakerPkHex d) ->
     stakerCount (l1 ++ d' :: l2) = stakerCount (l1 ++ d :: l2) - 1).
Proof.
  intros Hd Hd'.
  assert (Hgone : filter countable (l1 ++ d' :: l2) = filter countable (l1 ++ l2)).
  { rewrite !filter_app. by rewrite filter_cons_False by (intros ?; done). }
  rewrite !delegationsCount_filter, !stakerCount_set, Hgone.
  rewrite (stakers_cons_split l1 l2 d) by done.
  split; [|split].
  - rewrite !filter_app, filter_cons_True by done.
    rewrite !length_app. simpl. lia.
  - intros Hother. apply elem_of_countable_stakers in Hother.
    do 2 f_equal. set_solver.
  - intros Hlast. rewrite size_union, size_singleton; [lia|].
    intros s Hs Hrest. apply elem_of_singleton in Hs as ->.
    apply elem_of_countable_stakers in Hrest as (o & Ho & Hst & Heq).
    by apply (Hlast o).
Qed.

End CounterLaws.

(** ** Further facts: what the handlers call *)

Section HandlerCalls.

Variable Unbonded_ToString : string.
Variable BadRequest : ErrorCode.
Variable NetParams : Type.
Variable parsePublicKeyQuery : Request -> string -> string * option Error.
Variable parseBtcAddressQuery :
  Request -> string -> NetParams -> string * option Error.
Variable w : World.

Local Abbreviation GetStakerCountByFinalityProvider :=
  (GetStakerCountByFinalityProvider Unbonded_ToString parsePublicKeyQuery).
Local Abbreviation GetDelegationsCountByFinalityProvider :=
  (GetDelegationsCountByFinalityProvider Unbonded_ToString parsePublicKeyQuery).
Local Abbreviation GetStakerCountByStakerPk :=
  (GetStakerCountByStakerPk parsePublicKeyQuery).
Local Abbreviation CheckStakerDelegationExist :=
  (CheckStakerDelegationExist BadRequest parseBtcAddressQuery).
Local Abbreviation parseTimeframeToAfterTimestamp :=
  (parseTimeframeToAfterTimestamp BadRequest).

Lemma GetStakerCountByFinalityProvider_calls (request : Request) :
  calls w (GetStakerCountByFinalityProvider request)
  = let '(pk, err) := parsePublicKeyQuery request "finality_provider_pk_hex" in
    let ctx := Request_Context request in
    match err with
    | Some _ => []
    | None =>
        [ log_Debug_Msgf ctx
            "GetStakerCountByFinalityProvider: finalityProviderPkHex:%s"
            [ArgString pk];
          DelegationsByFinalityProviderPkHex ctx pk ]
        ++ match w (DelegationsByFinalityProviderPkHex ctx pk) with
           | (_, Some _) => []
           | (delegations, None) =>
               [ log_Debug_Msgf ctx
                   "GetStakerCountByFinalityProvider: delegations len:%d"
                   [ArgInt (Z.of_nat (length delegations))] ]
           end
    end.
Proof.
  unfold handlers.GetStakerCountByFinalityProvider.
  destruct (parsePublicKeyQuery _ _) as [pk [e|]]; [done|].
  run_step.
  by destruct (w (DelegationsByFinalityProviderPkHex _ pk)) as [ds [e|]].
Qed.

Lemma GetDelegationsCountByFinalityProvider_calls (request : Request) :
  calls w (GetDelegationsCountByFinalityProvider request)
  = let '(pk, err) := parsePublicKeyQuery request "finality_provider_pk_hex" in
    let ctx := Request_Context request in
    match err with
    | Some _ => []
    | None =>
        [ log_Debug_Msgf ctx
            "GetDelegationsCountByFinalityProvider-: finalityProviderPkHex:%s"
            [ArgString pk];
          DelegationsByFinalityProviderPkHex ctx pk ]
        ++ match w (DelegationsByFinalityProviderPkHex ctx pk) with
           | (_, Some _) => []
           | (delegations, None) =>
               [ log_Debug_Msgf ctx
                   "GetDelegationsCountByFinalityProvider: delegations len:%d"
                   [ArgInt (Z.of_nat (length delegations))] ]
           end
    end.
Proof.
  unfold handlers.GetDelegationsCountByFinalityProvider.
  destruct (parsePublicKeyQuery _ _) as [pk [e|]]; [done|].
  run_step.
  by destruct (w (DelegationsByFinalityProviderPkHex _ pk)) as [ds [e|]].
Qed.

Lemma parseTimeframeToAfterTimestamp_calls (timeframe : string) :
  calls w (parseTimeframeToAfterTimestamp timeframe)
  = if bool_decide (timeframe = "today") then [time_Now_Unix] else [].
Proof.
  unfold handlers.parseTimeframeToAfterTimestamp.
  repeat case_bool_decide; subst; done.
Qed.

Lemma CheckStakerDelegationExist_calls (h : Handler NetParams) (request : Request) :
  calls w (CheckStakerDelegationExist h request)
  = let '(address, err) :=
      parseBtcAddressQuery request "address" (config_Server_BTCNetParam h) in
    match err with
    | Some _ => []
    | None =>
        calls w (parseTimeframeToAfterTimestamp
                   (Values_Get (URL_Query request) "timeframe"))
        ++ match run w (parseTimeframeToAfterTimestamp
                          (Values_Get (URL_Query request) "timeframe")) with
           | (_, Some _) => []
           | (afterTimestamp, None) =>
               [ CheckStakerHasActiveDelegationByAddress
                   (Request_Context request) address afterTimestamp ]
           end
    end.
Proof.
  unfold handlers.CheckStakerDelegationExist.
  destruct (parseBtcAddressQuery _ _ _) as [address [e|]]; [done|].
  run_step. f_equal.
  destruct (run w (handlers.parseTimeframeToAfterTimestamp _ _)) as [ts [e|]];
    [done|].
  run_step.
  by destruct (w (CheckStakerHasActiveDelegationByAddress _ _ _))
    as [found [e|]].
Qed.

(** X8: with a key that does not parse the two counting operations call
    nothing, neither the logger nor a service.  Otherwise each makes one
    service call, the same for both: the fetch by finality provider with the
    context of the request and the parsed key, whether it fails or not. *)
Theorem counting_operations_fetch_once (request : Request) :
  let keyed := parsePublicKeyQuery request "finality_provider_pk_hex" in
  let fetch :=
    DelegationsByFinalityProviderPkHex (Request_Context request) (fst keyed) in
  match snd keyed with
  | Some _ =>
      calls w (GetStakerCountByFinalityProvider request) = []
      ∧ calls w (GetDelegationsCountByFinalityProvider request) = []
  | None =>
      service_calls w (GetStakerCountByFinalityProvider request) = [fetch]
      ∧ service_calls w (GetDelegationsCountByFinalityProvider request) = [fetch]
  end.
Proof.
  intros keyed fetch. subst keyed fetch. unfold service_calls.
  rewrite GetStakerCountByFinalityProvider_calls,
    GetDelegationsCountByFinalityProvider_calls.
  destruct (parsePublicKeyQuery _ _) as [pk [e|]]; simpl; [done|].
  by destruct (w (DelegationsByFinalityProviderPkHex _ pk)) as [ds [e|]].
Qed.

(** X9: on one request against one world the two counting operations fail
    together, with the same error, or succeed together, and then the
    distinct-staker count is at most the delegation count. *)
Theorem counting_operations_agree (request : Request) :
  let stakers := run w (GetStakerCountByFinalityProvider request) in
  let records := run w (GetDelegationsCountByFinalityProvider request) in
  snd stakers = snd records
  ∧ (snd stakers = None ->
     ∃ a b, stakers = (Some (NewResult (DataInt a)), None)
            ∧ records = (Some (NewResult (DataInt b)), None)
            ∧ 0 ≤ a ≤ b).
Proof using Type.
  clear parseBtcAddressQuery NetParams BadRequest.
  intros stakers records. subst stakers records.
  rewrite GetStakerCountByFinalityProvider_run,
    GetDelegationsCountByFinalityProvider_run.
  destruct (parsePublicKeyQuery _ _) as [pk [e|]]; [done|].
  destruct (w (DelegationsByFinalityProviderPkHex _ pk)) as [ds [e|]]; [done|].
  split; [done|]. intros _.
  exists (stakerCount Unbonded_ToString ds),
    (delegationsCount Unbonded_ToString ds).
  pose proof (stakerCount_le_delegationsCount Unbonded_ToString ds). by intuition.
Qed.

(** X10: each of the four operations hands back a result or an error, never
    both and never neither. *)
Theorem handlers_result_xor_error (h : Handler NetParams) (request : Request) :
  Forall (fun response : Response => fst response = None <-> snd response ≠ None)
    [ run w (GetStakerCountByFinalityProvider request);
      run w (GetDelegationsCountByFinalityProvider request);
      run w (GetStakerCountByStakerPk request);
      run w (CheckStakerDelegationExist h request) ].
Proof using Type.
  rewrite GetStakerCountByFinalityProvider_run,
    GetDelegationsCountByFinalityProvider_run,
    GetStakerCountByStakerPk_run, CheckStakerDelegationExist_run.
  destruct (parsePublicKeyQuery _ _) as [pk [e1|]],
    (parseBtcAddressQuery _ _ _) as [address [e2|]];
    repeat match goal with
           | |- context [match ?x with _ => _ end] => destruct x as [? [?|]]
           end;
    repeat constructor; simpl; intros; congruence.
Qed.

(** X11: resolving a timeframe reads the clock once for ["today"] and not at
    all otherwise; with the clock past the epoch the bound it gives is not
    negative and not in the future. *)
Theorem parseTimeframeToAfterTimestamp_clock (timeframe : string) :
  let now : Z := w time_Now_Unix in
  calls w (parseTimeframeToAfterTimestamp timeframe)
    = (if bool_decide (timeframe = "today") then [time_Now_Unix] else [])
  ∧ (0 ≤ now ->
     0 ≤ fst (run w (parseTimeframeToAfterTimestamp timeframe)) ≤ now).
Proof using Type.
  intros now. split; [apply parseTimeframeToAfterTimestamp_calls|].
  intros Hnow. rewrite parseTimeframeToAfterTimestamp_run.
  pose proof (Z.mod_pos_bound now 86400 ltac:(lia)) as Hmod.
  pose proof (Z.mod_le now 86400 Hnow ltac:(lia)) as Hle.
  repeat case_bool_decide; simpl; fold now; lia.
Qed.

(** X12: the existence check looks a delegation up only after the address
    and the timeframe have both passed, and then once; it reads the clock
    only when the address has passed and the timeframe is ["today"]. *)
Theorem CheckStakerDelegationExist_calls_in_order
    (h : Handler NetParams) (request : Request) :
  let parsed :=
    parseBtcAddressQuery request "address" (config_Server_BTCNetParam h) in
  let timeframe := Values_Get (URL_Query request) "timeframe" in
  let start : Z := (w time_Now_Unix : Z) - (w time_Now_Unix : Z) mod 86400 in
  let lookup := CheckStakerHasActiveDelegationByAddress
                  (Request_Context request) (fst parsed) in
  calls w (CheckStakerDelegationExist h request)
  = match snd parsed with
    | Some _ => []
    | None =>
        if bool_decide (timeframe = "") then [lookup 0]
        else if bool_decide (timeframe = "today") then
          [time_Now_Unix; lookup start]
        else []
    end.
Proof using Type.
  intros parsed timeframe start lookup. subst parsed lookup start.
  rewrite CheckStakerDelegationExist_calls.
  fold timeframe.
  rewrite parseTimeframeToAfterTimestamp_calls,
    parseTimeframeToAfterTimestamp_run.
  destruct (parseBtcAddressQuery _ _ _) as [address [e|]]; simpl; [done|].
  repeat case_bool_decide; subst; simpl; congruence.
Qed.

(** X13: a request without a timeframe, or with an empty first value, is
    looked up with the bound 0; of a timeframe given several times only the
    first value counts. *)
Theorem CheckStakerDelegationExist_timeframe_values
    (h : Handler NetParams) (request : Request) (address : string) :
  parseBtcAddressQuery request "address" (config_Server_BTCNetParam h)
    = (address, None) ->
  let ctx := Request_Context request in
  let start : Z := (w time_Now_Unix : Z) - (w time_Now_Unix : Z) mod 86400 in
  let given := URL_Query request !! "timeframe" in
  ((given = None ∨ given = Some [] ∨ ∃ rest, given = Some ("" :: rest)) ->
     service_calls w (CheckStakerDelegationExist h request)
     = [CheckStakerHasActiveDelegationByAddress ctx address 0])
  ∧ (∀ rest, given = Some ("today" :: rest) ->
       service_calls w (CheckStakerDelegationExist h request)
       = [CheckStakerHasActiveDelegationByAddress ctx address start])
  ∧ (∀ first rest, given = Some (first :: rest) ->
       first ≠ "" -> first ≠ "today" ->
       calls w (CheckStakerDelegationExist h request) = []
       ∧ run w (CheckStakerDelegationExist h request)
         = (None, Some (NewErrorWithMsg http_StatusBadRequest BadRequest
                          "invalid timeframe value"))).
Proof using Type.
  intros Hparse ctx start given. subst ctx start given.
  unfold service_calls.
  rewrite CheckStakerDelegationExist_calls, CheckStakerDelegationExist_run,
    Hparse.
  rewrite parseTimeframeToAfterTimestamp_calls,
    parseTimeframeToAfterTimestamp_run.
  unfold Values_Get.
  split; [|split].
  - intros [-> | [-> | [rest ->]]]; done.
  - intros rest ->. done.
  - intros first rest -> Hne Hnt.
    by rewrite !bool_decide_eq_false_2.
Qed.

End HandlerCalls.

(** ** Further facts: the error of [Validate] and the paged listing *)

Section ValidateErrors.

Import config.

Variable IP : Type.
Variable net_ParseIP : string -> option IP.

(** X14: the message of [Validate] names the first check that fails, in the
    order host, port, write, read and idle timeout: each message is returned
    exactly when its check fails and all the checks before it pass. *)
Theorem Validate_reports_first_failure (cfg : ServerConfig) :
  (Validate net_ParseIP cfg = Some (errorString ("invalid host: " +:+ Host cfg))
   <-> net_ParseIP (Host cfg) = None)
  ∧ (Validate net_ParseIP cfg = Some (errorString "invalid port")
     <-> net_ParseIP (Host cfg) ≠ None ∧ (Port cfg < 0 ∨ 65535 < Port cfg))
  ∧ (Validate net_ParseIP cfg
       = Some (errorString "write timeout cannot be negative")
     <-> net_ParseIP (Host cfg) ≠ None ∧ 0 ≤ Port cfg ≤ 65535
         ∧ WriteTimeout cfg < 0)
  ∧ (Validate net_ParseIP cfg
       = Some (errorString "read timeout cannot be negative")
     <-> net_ParseIP (Host cfg) ≠ None ∧ 0 ≤ Port cfg ≤ 65535
         ∧ 0 ≤ WriteTimeout cfg ∧ ReadTimeout cfg < 0)
  ∧ (Validate net_ParseIP cfg
       = Some (errorString "idle timeout cannot be negative")
     <-> net_ParseIP (Host cfg) ≠ None ∧ 0 ≤ Port cfg ≤ 65535
         ∧ 0 ≤ WriteTimeout cfg ∧ 0 ≤ ReadTimeout cfg ∧ IdleTimeout cfg < 0).
Proof.
  unfold Validate, fmt_Errorf_v, errors_New.
  destruct (net_ParseIP (Host cfg)) as [ip|].
  - repeat case_bool_decide; simpl;
      repeat split; intros; destruct_and?; try done; try lia; try congruence.
  - repeat split; intros; destruct_and?; try done; try congruence.
Qed.

End ValidateErrors.

Section Listing.

Import listing.

Variable DelegationPublic : Type.
Variable PagedResult : Type.
Variable parsePublicKeyQuery : Request -> string -> string * option Error.
Variable parsePaginationQuery : Request -> string * option Error.
Variable NewResultWithPagination : list DelegationPublic -> string -> PagedResult.

Local Abbreviation GetStakerDelegations :=
  (GetStakerDelegations parsePublicKeyQuery parsePaginationQuery
     NewResultWithPagination).

(** X15: the listing checks the staker key first and the pagination key
    second; when either fails it hands back that error whatever the service
    would have said.  With both in order it asks the service for the page
    after the parsed pagination key and hands back its page and next key
    untouched, or its error and nothing else. *)
Theorem GetStakerDelegations_outcome
    (service service' :
       Context -> string -> string -> list DelegationPublic * string * option Error)
    (request : Request) :
  let staker := parsePublicKeyQuery request "staker_btc_pk" in
  let page := parsePaginationQuery request in
  let reply := service (Request_Context request) (fst staker) (fst page) in
  let response := GetStakerDelegations service request in
  (fst response = None <-> snd response ≠ None)
  ∧ (∀ e, snd staker = Some e ->
       response = (None, Some e)
       ∧ GetStakerDelegations service' request = (None, Some e))
  ∧ (∀ e, snd staker = None -> snd page = Some e ->
       response = (None, Some e)
       ∧ GetStakerDelegations service' request = (None, Some e))
  ∧ (snd staker = None -> snd page = None ->
       response
       = match snd reply with
         | Some e => (None, Some e)
         | None =>
             (Some (NewResultWithPagination (fst (fst reply)) (snd (fst reply))),
              None)
         end).
Proof.
  intros staker page reply response.
  subst response reply staker page. unfold listing.GetStakerDelegations.
  destruct (parsePublicKeyQuery _ _) as [pk [e1|]],
    (parsePaginationQuery _) as [key [e2|]]; simpl;
    try destruct (service _ _ _) as [[ds next] [e3|]]; simpl;
    repeat split; intros; simplify_eq; try done.
Qed.

End Listing.

(** The ledger read backwards. *)
Lemma delegationsCount_Permutation_witness :
  delegationsCount Fixtures.Unbonded (rev Samples.ledger)
  = delegationsCount Fixtures.Unbonded Samples.ledger.
Proof.
  apply (delegationsCount_Permutation Fixtures.Unbonded Samples.ledger
           (rev Samples.ledger)).
  apply Permutation_rev.
Defined.

(** Staker B has one record that counts; once it unbonds, B counts no more. *)
Lemma counts_after_unbonding_witness :
  let l1 := take 2 Samples.ledger in
  let l2 := drop 3 Samples.ledger in
  let d := Fixtures.delegation "tx3" Fixtures.stakerB Fixtures.Active 1700000200 in
  let d' := Fixtures.delegation "tx3" Fixtures.stakerB Fixtures.Unbonded 1700000200 in
  delegationsCount Fixtures.Unbonded (l1 ++ d' :: l2)
    = delegationsCount Fixtures.Unbonded (l1 ++ d :: l2) - 1
  ∧ stakerCount Fixtures.Unbonded (l1 ++ d' :: l2)
    = stakerCount Fixtures.Unbonded (l1 ++ d :: l2) - 1.
Proof.
  intros l1 l2 d d'.
  destruct (counts_after_unbonding Fixtures.Unbonded l1 l2 d d')
    as (Hrecords & _ & Hlast).
  - discriminate.
  - reflexivity.
  - split; [exact Hrecords|]. apply Hlast.
    refine (proj1 (Forall_forall
                     (fun o => State o ≠ Fixtures.Unbonded ->
                               StakerPkHex o ≠ StakerPkHex d) (l1 ++ l2)) _).
    unfold l1, l2, Samples.ledger. simpl.
    repeat apply Forall_cons_2; try apply Forall_nil_2; simpl.
    + intros _ Heq. vm_compute in Heq. discriminate Heq.
    + intros Hst. exfalso. by apply Hst.
    + intros _ Heq. vm_compute in Heq. discriminate Heq.
    + intros Hst. exfalso. by apply Hst.
Defined.

(** The timeframe is given as ["today"] and then as ["tomorrow"]. *)
Lemma CheckStakerDelegationExist_timeframe_values_witness :
  service_calls (Fixtures.world Fixtures.scenario 1700000300)
    (CheckStakerDelegationExist Fixtures.BadRequest
       Fixtures.parseBtcAddressQuery Fixtures.signet_handler
       Samples.check_request_two_timeframes)
  = [ CheckStakerHasActiveDelegationByAddress 9%N
        "tb1pyqjxwcdv6pfcaj2l565ludclz2pwu2k5azs6uznz8kml74kkma6qm0gzlv"
        1699920000 ].
Proof.
  refine (proj1 (proj2
            (CheckStakerDelegationExist_timeframe_values Fixtures.BadRequest
               Fixtures.NetParams Fixtures.parseBtcAddressQuery
               (Fixtures.world Fixtures.scenario 1700000300)
               Fixtures.signet_handler Samples.check_request_two_timeframes
               "tb1pyqjxwcdv6pfcaj2l565ludclz2pwu2k5azs6uznz8kml74kkma6qm0gzlv"
               _))
            ["tomorrow"] _);
    vm_compute; reflexivity.
Defined.

(** Staker A has three records; two of them count. *)
Lemma countMap_counts_records_witness :
  countMap_of Fixtures.Unbonded Samples.ledger !! Fixtures.stakerA = Some 2.
Proof.
  refine (proj2 (proj2 (countMap_counts_records Fixtures.Unbonded
                          Samples.ledger Fixtures.stakerA)) _).
  vm_compute. split; reflexivity.
Defined.

(** The service is down and had a page at hand. *)
Lemma GetStakerDelegations_outcome_witness :
  listing.GetStakerDelegations Fixtures.parsePublicKeyQuery
    Samples.parsePaginationQuery (fun page next => (page, next))
    Samples.DelegationsByStakerPk_down Samples.listing_request
  = (None, Some Fixtures.InternalServiceError).
Proof.
  refine (proj2 (proj2 (proj2
            (GetStakerDelegations_outcome string (list string * string)
               Fixtures.parsePublicKeyQuery Samples.parsePaginationQuery
               (fun page next => (page, next))
               Samples.DelegationsByStakerPk_down Samples.DelegationsByStakerPk
               Samples.listing_request))) _ _);
    vm_compute; reflexivity.
Defined.

Example GetStakerDelegations_page :
  listing.GetStakerDelegations Fixtures.parsePublicKeyQuery
    Samples.parsePaginationQuery (fun page next => (page, next))
    Samples.DelegationsByStakerPk Samples.listing_request
  = (Some (["tx1"; "tx4"], ""), None).
Proof. vm_compute. reflexivity. Qed.

Example ledger_counts :
  stakerCount Fixtures.Unbonded Samples.ledger = 2
  ∧ delegationsCount Fixtures.Unbonded Samples.ledger = 3.
Proof. vm_compute. done. Qed.

Example check_without_timeframe :
  calls (Fixtures.world Fixtures.scenario 1700000300)
    (CheckStakerDelegationExist Fixtures.BadRequest
       Fixtures.parseBtcAddressQuery Fixtures.signet_handler
       Samples.check_request_no_timeframe)
  = [ CheckStakerHasActiveDelegationByAddress 9%N
        "tb1pyqjxwcdv6pfcaj2l565ludclz2pwu2k5azs6uznz8kml74kkma6qm0gzlv" 0 ].
Proof. vm_compute. reflexivity. Qed.
